(** * ArduinoMK1010CloudDevice: the sketch [src/main.cpp]

    A shallow embedding of the Arduino sketch that links a MKR WiFi 1010 to
    an Azure IoT hub over MQTT and hands received command strings to the zone
    lighting controller.

    The sketch is sequential C++ over a handful of globals and library
    objects.  It is embedded as a state-and-output monad: a computation takes
    the [world] (the sketch's globals and what the libraries report) and
    either returns with the events it emitted, or never returns ([Stuck]).
    Library calls whose effect is outside the sketch (serial output, MQTT
    client calls, delays) are recorded as [event]s, in program order. *)

From Stdlib.Strings Require Import String Byte.
From Stdlib Require Import ZArith List Bool Lia.
Import ListNotations.

Open Scope Z_scope.

(** ** Bytes and C strings *)

(** Text literals of the sketch, as the bytes the compiler stores. *)
Definition txt (s : string) : list byte := list_byte_of_string s.
Arguments txt s%_string.

Definition is_nul (b : byte) : bool := Byte.eqb b x00.

(** [strlen p]: offset of the first zero byte from [p] on.  [mem] is the
    memory from [p] to the end of the modelled RAM; without any zero byte the
    scan runs to the end of it. *)
Fixpoint strlen (mem : list byte) : nat :=
  match mem with
  | [] => 0%nat
  | b :: rest => if is_nul b then 0%nat else S (strlen rest)
  end.

(** [strnlen p maxlen]: as [strlen], looking at no more than [maxlen] bytes. *)
Fixpoint strnlen (mem : list byte) (maxlen : nat) : nat :=
  match maxlen, mem with
  | S m, b :: rest => if is_nul b then 0%nat else S (strnlen rest m)
  | _, _ => 0%nat
  end.

(** Highest offset a [strnlen p maxlen] reads: the terminator it stops at, or
    the last of the [maxlen] bytes. *)
Definition strnlen_last_read (mem : list byte) (maxlen : nat) : nat :=
  let n := strnlen mem maxlen in
  if (n <? maxlen)%nat then n else pred maxlen.

(** The text a [const char*] denotes: the bytes before the first zero byte. *)
Definition c_str (mem : list byte) : list byte := firstn (strlen mem) mem.

(** ** Configuration and globals *)

(** [arduino_secrets.h] is not part of the sources: its five macros are taken
    as parameters. *)
Record arduino_secrets := {
  SECRET_WIFI_SSID : list byte;
  SECRET_WIFI_PASS : list byte;
  SECRET_BROKER : list byte;
  SECRET_DEVICE_ID : list byte;
  SECRET_DEVICE_PASSWORD : list byte
}.

Definition max_mqtt_buffer_len : Z := 256.

(** The interface of [ZoneLightingController] as [main.cpp] uses it
    ([zone_lighting_controller.h] is not part of the sources).  The object is
    stateful, so both calls thread it. *)
Class ZoneLightingController (C : Type) := {
  Initialize : C -> C;
  HighlightZone : C -> list byte -> bool * C
}.

(** ** Events *)

Inductive event :=
| Delay (ms : Z)
| SerialBegin (baud : Z)
| SerialPrint (s : list byte)
| SerialPrintInt (n : Z)
| SerialPrintln (s : list byte)
| SerialPrintlnInt (n : Z)
| LightingInitialize
| LightingHighlightZone (command : list byte) (understood : bool)
| ECCX08Begin (present : bool)
| CertReconstruct (keySlot storageSlot : Z)
| SslOnGetTime
| SslSetEccSlot (slot : Z)
| WiFiBegin (ssid pass : list byte) (connected : bool)
| MqttSetId (id : list byte)
| MqttSetUsernamePassword (username password : list byte)
| MqttOnMessage
| MqttConnect (host : list byte) (port : Z) (ok : bool)
| MqttSubscribe (topic : list byte)
| MqttPoll
| MqttRead (size : Z)
| MqttFlush
| MqttBeginMessage (topic : list byte)
| MqttPrint (s : list byte)
| MqttEndMessage
| BufferScan (last : nat).
(** [BufferScan last]: a terminator scan over [mqtt_buffer] read the bytes at
    offsets [0 .. last] from the start of the array. *)

(** What one call of [mqttClient.poll()] finds on the link. *)
Inductive happening :=
| Quiet
| Message (topic payload : list byte)
| SessionLost
| LinkLost.

(** What one call of [mqttClient.connect(broker, 8883)] comes to: the session
    is up, or it is not and [connectError()] gives the code. *)
Inductive connect_result :=
| SessionUp
| ConnectFailed (error : Z).

Definition connect_ok (r : connect_result) : bool :=
  match r with SessionUp => true | ConnectFailed _ => false end.

(** Why a computation never returns. *)
Inductive stall :=
| AwaitSerial      (* [while (!Serial);] with no serial port coming up *)
| Halted           (* [while (1);] *)
| RetryWiFi        (* still in the retry loop of [connectWiFi] *)
| RetryMQTT.       (* still in the retry loop of [connectMQTT] *)

(** ** The world *)

Section World.

Context {C : Type}.

Record world := mkWorld {
  (* globals of the sketch *)
  memory : list byte;
    (* RAM from [&mqtt_buffer[0]] on: the 256 bytes of [mqtt_buffer], then
       whatever the linker placed behind the array *)
  lightingController : C;
  lastMillis : Z;
  (* mqttClient: the message being delivered to the callback *)
  rx_topic : list byte;
  rx : list byte;
  (* what the board and the libraries report *)
  serial_ready : bool;
  eccx08_present : bool;
  wifi_connected : bool;
  mqtt_connected : bool;
  wifi_begin_results : list bool;
  mqtt_connect_results : list connect_result;
  happenings : list happening;
  clock : Z;
  flush_leaves : list byte -> list byte
    (* [mqttClient.flush()]: what it leaves of the payload still to be read *)
}.

Definition mqtt_buffer (w : world) : list byte :=
  firstn (Z.to_nat max_mqtt_buffer_len) (memory w).

Definition set_memory (m : list byte) (w : world) : world :=
  mkWorld m (lightingController w) (lastMillis w) (rx_topic w) (rx w)
    (serial_ready w) (eccx08_present w) (wifi_connected w) (mqtt_connected w)
    (wifi_begin_results w) (mqtt_connect_results w) (happenings w) (clock w)
    (flush_leaves w).

Definition set_lightingController (c : C) (w : world) : world :=
  mkWorld (memory w) c (lastMillis w) (rx_topic w) (rx w)
    (serial_ready w) (eccx08_present w) (wifi_connected w) (mqtt_connected w)
    (wifi_begin_results w) (mqtt_connect_results w) (happenings w) (clock w)
    (flush_leaves w).

Definition set_lastMillis (t : Z) (w : world) : world :=
  mkWorld (memory w) (lightingController w) t (rx_topic w) (rx w)
    (serial_ready w) (eccx08_present w) (wifi_connected w) (mqtt_connected w)
    (wifi_begin_results w) (mqtt_connect_results w) (happenings w) (clock w)
    (flush_leaves w).

Definition set_rx (topic payload : list byte) (w : world) : world :=
  mkWorld (memory w) (lightingController w) (lastMillis w) topic payload
    (serial_ready w) (eccx08_present w) (wifi_connected w) (mqtt_connected w)
    (wifi_begin_results w) (mqtt_connect_results w) (happenings w) (clock w)
    (flush_leaves w).

Definition set_wifi (up : bool) (results : list bool) (w : world) : world :=
  mkWorld (memory w) (lightingController w) (lastMillis w) (rx_topic w) (rx w)
    (serial_ready w) (eccx08_present w) up (mqtt_connected w)
    results (mqtt_connect_results w) (happenings w) (clock w)
    (flush_leaves w).

Definition set_mqtt (up : bool) (results : list connect_result) (w : world) : world :=
  mkWorld (memory w) (lightingController w) (lastMillis w) (rx_topic w) (rx w)
    (serial_ready w) (eccx08_present w) (wifi_connected w) up
    (wifi_begin_results w) results (happenings w) (clock w)
    (flush_leaves w).

Definition set_link (wifi mqtt : bool) (w : world) : world :=
  mkWorld (memory w) (lightingController w) (lastMillis w) (rx_topic w) (rx w)
    (serial_ready w) (eccx08_present w) wifi mqtt
    (wifi_begin_results w) (mqtt_connect_results w) (happenings w) (clock w)
    (flush_leaves w).

Definition set_happenings (h : list happening) (w : world) : world :=
  mkWorld (memory w) (lightingController w) (lastMillis w) (rx_topic w) (rx w)
    (serial_ready w) (eccx08_present w) (wifi_connected w) (mqtt_connected w)
    (wifi_begin_results w) (mqtt_connect_results w) h (clock w)
    (flush_leaves w).

Definition set_clock (t : Z) (w : world) : world :=
  mkWorld (memory w) (lightingController w) (lastMillis w) (rx_topic w) (rx w)
    (serial_ready w) (eccx08_present w) (wifi_connected w) (mqtt_connected w)
    (wifi_begin_results w) (mqtt_connect_results w) (happenings w) t
    (flush_leaves w).


(** ** The monad: state, output, and not returning *)

Inductive outcome (A : Type) :=
| Ret (a : A) (w : world) (out : list event)
| Stuck (why : stall) (w : world) (out : list event).

Arguments Ret {A} a w out.
Arguments Stuck {A} why w out.

Definition M (A : Type) : Type := world -> outcome A.

Definition ret {A} (a : A) : M A := fun w => Ret a w [].

Definition bind {A B} (m : M A) (k : A -> M B) : M B := fun w =>
  match m w with
  | Ret a w1 o1 =>
      match k a w1 with
      | Ret b w2 o2 => Ret b w2 (o1 ++ o2)
      | Stuck why w2 o2 => Stuck why w2 (o1 ++ o2)
      end
  | Stuck why w1 o1 => Stuck why w1 o1
  end.

Definition emit (e : event) : M unit := fun w => Ret tt w [e].
Definition get {A} (f : world -> A) : M A := fun w => Ret (f w) w [].
Definition modify (f : world -> world) : M unit := fun w => Ret tt (f w) [].
Definition never {A} (why : stall) : M A := fun w => Stuck why w [].

Definition events {A} (r : outcome A) : list event :=
  match r with Ret _ _ out => out | Stuck _ _ out => out end.

Definition final {A} (r : outcome A) : world :=
  match r with Ret _ w _ => w | Stuck _ w _ => w end.

Definition returns {A} (r : outcome A) : bool :=
  match r with Ret _ _ _ => true | Stuck _ _ _ => false end.

End World.

Arguments world C : clear implicits.
Arguments outcome C A : clear implicits.
Arguments Ret {C A} a w out.
Arguments Stuck {C A} why w out.
Arguments M C A : clear implicits.

Declare Scope sketch_scope.
Delimit Scope sketch_scope with sketch.
Notation "x <- m ;; k" := (bind m (fun x => k))
  (at level 61, m at next level, right associativity) : sketch_scope.
Notation "m ;; k" := (bind m (fun _ => k))
  (at level 61, right associativity) : sketch_scope.
Open Scope sketch_scope.

(** ** The sketch *)

Section Sketch.

Context {C : Type} {ZL : ZoneLightingController C}.
Variable secrets : arduino_secrets.

Let M := M C.

Definition ssid : list byte := SECRET_WIFI_SSID secrets.
Definition pass : list byte := SECRET_WIFI_PASS secrets.
Definition broker : list byte := SECRET_BROKER secrets.
Definition deviceId : list byte := SECRET_DEVICE_ID secrets.
Definition devicePass : list byte := SECRET_DEVICE_PASSWORD secrets.

(** *** Arduino core and library calls *)

Definition delay (ms : Z) : M unit :=
  emit (Delay ms) ;;
  modify (fun w => set_clock (clock w + ms) w).

(** [millis()] is an [unsigned long], 32 bits on the board. *)
Definition millis : M Z := get (fun w => clock w mod 2 ^ 32).

Definition Serial_print (s : list byte) : M unit := emit (SerialPrint s).
Definition Serial_print_int (n : Z) : M unit := emit (SerialPrintInt n).
Definition Serial_println (s : list byte) : M unit := emit (SerialPrintln s).
Definition Serial_println_int (n : Z) : M unit := emit (SerialPrintlnInt n).

(** [print(mqtt_buffer)]: [Print::print] on a [const char *] measures its argument
    with [strlen] and writes that many bytes. *)
Definition mqtt_buffer_c_str : M (list byte) :=
  mem <- get memory ;;
  emit (BufferScan (strlen mem)) ;;
  ret (c_str mem).

(** [std::string(mqtt_buffer, strnlen(mqtt_buffer, max_mqtt_buffer_len))] *)
Definition mqtt_buffer_string : M (list byte) :=
  mem <- get memory ;;
  let cap := Z.to_nat max_mqtt_buffer_len in
  emit (BufferScan (strnlen_last_read mem cap)) ;;
  ret (firstn (strnlen mem cap) mem).

Definition mqttClient_messageTopic : M (list byte) := get rx_topic.

(** [mqttClient.available()]: what is left of the payload being delivered. *)
Definition mqttClient_available : M Z :=
  get (fun w => Z.of_nat (length (rx w))).

(** [mqttClient.read(mqtt_buffer, size)]: moves up to [size] bytes
    of the payload to the start of [mqtt_buffer]; the bytes behind them stay
    as they were. *)
Definition mqttClient_read_mqtt_buffer (size : Z) : M unit :=
  payload <- get rx ;;
  let got := firstn (Z.to_nat size) payload in
  modify (fun w => set_memory (got ++ skipn (length got) (memory w)) w) ;;
  modify (fun w => set_rx (rx_topic w) (skipn (length got) payload) w) ;;
  emit (MqttRead size).

(** [mqttClient.flush()]: a call into the client library.  What it does to
    the payload still to be read is the library's, and the world says it
    ([flush_leaves]). *)
Definition mqttClient_flush : M unit :=
  emit MqttFlush ;;
  modify (fun w => set_rx (rx_topic w) (flush_leaves w (rx w)) w).

Definition mqttClient_beginMessage (topic : list byte) : M unit :=
  emit (MqttBeginMessage topic).
Definition mqttClient_print (s : list byte) : M unit := emit (MqttPrint s).
Definition mqttClient_endMessage : M unit := emit MqttEndMessage.

Definition lightingController_Initialize : M unit :=
  modify (fun w => set_lightingController (Initialize (lightingController w)) w) ;;
  emit LightingInitialize.

Definition lightingController_HighlightZone (command : list byte) : M bool :=
  fun w =>
    let (understood, c) := HighlightZone (lightingController w) command in
    Ret understood (set_lightingController c w)
        [LightingHighlightZone command understood].

Definition ECCX08_begin : M bool :=
  present <- get eccx08_present ;;
  emit (ECCX08Begin present) ;;
  ret present.

(** *** [onMessageReceived] *)

Definition onMessageReceived (messageSize : Z) : M unit :=
  Serial_print (txt "Received a message with topic '") ;;
  topic <- mqttClient_messageTopic ;;
  Serial_print topic ;;
  Serial_print (txt "', length ") ;;
  Serial_print_int messageSize ;;
  buffer_len <- mqttClient_available ;;
  if buffer_len =? 0 then
    Serial_println (txt "nothing in mqtt buffer")
  else if buffer_len >? max_mqtt_buffer_len then
    Serial_println
      (txt "incoming message too big, update max_mqtt_buffer_len and recompile") ;;
    mqttClient_flush
  else
    mqttClient_read_mqtt_buffer buffer_len ;;
    Serial_println (txt " bytes:") ;;
    shown <- mqtt_buffer_c_str ;;
    Serial_print shown ;;
    Serial_println [] ;;
    Serial_println [] ;;
    command <- mqtt_buffer_string ;;
    the_message_was_understood_and_acted_on <-
      lightingController_HighlightZone command ;;
    mqttClient_beginMessage
      (txt "devices/" ++ deviceId ++ txt "/messages/events/") ;;
    mqttClient_print (txt "the command string <") ;;
    echoed <- mqtt_buffer_c_str ;;
    mqttClient_print echoed ;;
    mqttClient_print (txt "> was ") ;;
    mqttClient_print
      (if the_message_was_understood_and_acted_on
       then txt "processed successfully"
       else txt "processed unsuccessfully") ;;
    mqttClient_endMessage ;;
    command' <- mqtt_buffer_string ;;
    again <- lightingController_HighlightZone command' ;;
    if again then
      Serial_println (txt "the command string <") ;;
      shown' <- mqtt_buffer_c_str ;;
      Serial_print shown' ;;
      Serial_print (txt "> did not equate to any known operation")
    else ret tt.

(** *** [connectWiFi] and [connectMQTT]

    The retry loops run over the outcomes of the successive attempts, as the
    world records them; a loop that has used them all up is still retrying. *)

Fixpoint connectWiFi_retry (results : list bool) : M unit :=
  match results with
  | [] => never RetryWiFi
  | connected :: rest =>
      emit (WiFiBegin ssid pass connected) ;;
      modify (set_wifi connected rest) ;;
      if connected then ret tt
      else
        Serial_print (txt ".") ;;
        delay 5000 ;;
        connectWiFi_retry rest
  end.

Definition connectWiFi : M unit :=
  Serial_print (txt "Attempting to connect to SSID: ") ;;
  Serial_print ssid ;;
  Serial_print (txt " ") ;;
  results <- get wifi_begin_results ;;
  connectWiFi_retry results ;;
  Serial_println [] ;;
  Serial_println (txt "You're connected to the network") ;;
  Serial_println [].

Fixpoint connectMQTT_retry (results : list connect_result) : M unit :=
  match results with
  | [] => never RetryMQTT
  | r :: rest =>
      emit (MqttConnect broker 8883 (connect_ok r)) ;;
      modify (set_mqtt (connect_ok r) rest) ;;
      match r with
      | SessionUp => ret tt
      | ConnectFailed error =>
          Serial_print (txt "Connecting to MQTT broker - Failed Error Code:") ;;
          Serial_println_int error ;;
          delay 5000 ;;
          connectMQTT_retry rest
      end
  end.

Definition mqttClient_subscribe (topic : list byte) : M unit :=
  emit (MqttSubscribe topic).

Definition connectMQTT : M unit :=
  Serial_print (txt "Attempting to MQTT broker: ") ;;
  Serial_print broker ;;
  Serial_println (txt " ") ;;
  results <- get mqtt_connect_results ;;
  connectMQTT_retry results ;;
  Serial_println [] ;;
  Serial_println (txt "You're connected to the MQTT broker") ;;
  Serial_println [] ;;
  mqttClient_subscribe (txt "devices/" ++ deviceId ++ txt "/messages/devicebound/#").

(** [mqttClient.poll()]: takes what the link has for this call.  A message
    is handed to the callback registered in [setup], with its payload length
    as the size; a lost session or link shows in [connected()] and
    [WiFi.status()] from then on. *)
Definition mqttClient_poll : M unit :=
  emit MqttPoll ;;
  pending <- get happenings ;;
  match pending with
  | [] => ret tt
  | h :: rest =>
      modify (set_happenings rest) ;;
      match h with
      | Quiet => ret tt
      | Message topic payload =>
          modify (set_rx topic payload) ;;
          onMessageReceived (Z.of_nat (length payload))
      | SessionLost => modify (fun w => set_link (wifi_connected w) false w)
      | LinkLost => modify (set_link false false)
      end
  end.

(** *** [setup] and [loop] *)

Definition setup : M unit :=
  delay 5000 ;;
  emit (SerialBegin 9600) ;;
  ready <- get serial_ready ;;
  (if ready then ret tt else never AwaitSerial) ;;
  lightingController_Initialize ;;
  present <- ECCX08_begin ;;
  (if negb present then
     Serial_println (txt "No ECCX08 present!") ;;
     never Halted
   else ret tt) ;;
  emit (CertReconstruct 0 8) ;;
  emit SslOnGetTime ;;
  emit (SslSetEccSlot 0) ;;
  emit (MqttSetId deviceId) ;;
  let username := broker ++ txt "/" ++ deviceId ++ txt "/api-version=2018-06-30" in
  Serial_print (txt "Username:" ++ [x09]) ;;
  Serial_println username ;;
  Serial_print (txt "Device Pass:" ++ [x09]) ;;
  Serial_println devicePass ;;
  emit (MqttSetUsernamePassword username devicePass) ;;
  emit MqttOnMessage.

Definition loop : M unit :=
  up <- get wifi_connected ;;
  (if negb up then connectWiFi else ret tt) ;;
  session <- get mqtt_connected ;;
  (if negb session then connectMQTT else ret tt) ;;
  mqttClient_poll ;;
  now <- millis ;;
  last <- get lastMillis ;;
  if (now - last) mod 2 ^ 32 >? 5000 then
    now' <- millis ;;
    modify (set_lastMillis now')
  else ret tt.

(** The Arduino core's [main]: [setup()] once, then [loop()] for ever; here
    the first [n] rounds of it. *)
Fixpoint loops (n : nat) : M unit :=
  match n with
  | O => ret tt
  | S k => loop ;; loops k
  end.

Definition sketch (n : nat) : M unit := setup ;; loops n.

End Sketch.

Arguments txt : simpl never.

(** ** The zone lighting controller *)

Inductive ZoneSelector := Zone1 | Zone2 | Zone3 | Zone4.

Fixpoint bytes_eqb (a b : list byte) : bool :=
  match a, b with
  | [], [] => true
  | x :: a', y :: b' => Byte.eqb x y && bytes_eqb a' b'
  | _, _ => false
  end.

(** Modelled from the spec: the body of [ZoneLightingController]
    ([zone_lighting_controller.h] and its implementation) is missing.  The
    spec's Command Router looks the command text up, by exact match, in a
    static table of known zone-selection commands; on a match it has the
    Actuation Layer highlight the resolved zone and answers true, otherwise it
    answers false and does nothing.  [highlighted] lists the zone-highlight
    operations carried out, oldest first. *)
Record TableController := {
  zone_table : list (list byte * ZoneSelector);
  highlighted : list ZoneSelector
}.

Fixpoint route (table : list (list byte * ZoneSelector)) (command : list byte)
  : option ZoneSelector :=
  match table with
  | [] => None
  | (name, zone) :: rest =>
      if bytes_eqb name command then Some zone else route rest command
  end.

Definition table_HighlightZone (c : TableController) (command : list byte)
  : bool * TableController :=
  match route (zone_table c) command with
  | Some zone =>
      (true, {| zone_table := zone_table c;
                highlighted := highlighted c ++ [zone] |})
  | None => (false, c)
  end.

#[export] Instance TableController_ZoneLightingController
  : ZoneLightingController TableController :=
  {| Initialize := fun c => c; HighlightZone := table_HighlightZone |}.

(** The vocabulary the sketch itself names (the calls left in [loop] as
    comments) and the spec's scenarios use. *)
Definition known_zones : list (list byte * ZoneSelector) :=
  [(txt "Zone1", Zone1); (txt "Zone2", Zone2);
   (txt "Zone3", Zone3); (txt "Zone4", Zone4)].

(** ** Reading a run *)

(** The messages a run hands to the broker: each [beginMessage] opens one,
    [print] adds to its body, [endMessage] sends it. *)
Fixpoint published_from (open : option (list byte * list byte))
  (evs : list event) : list (list byte * list byte) :=
  match evs with
  | [] => []
  | MqttBeginMessage topic :: rest => published_from (Some (topic, [])) rest
  | MqttPrint s :: rest =>
      published_from
        (match open with
         | Some (topic, body) => Some (topic, body ++ s)
         | None => None
         end) rest
  | MqttEndMessage :: rest =>
      match open with
      | Some m => m :: published_from None rest
      | None => published_from None rest
      end
  | _ :: rest => published_from open rest
  end.

Definition published : list event -> list (list byte * list byte) :=
  published_from None.

Definition count (p : event -> bool) (evs : list event) : nat :=
  length (filter p evs).

Definition is_read (e : event) : bool :=
  match e with MqttRead _ => true | _ => false end.
Definition is_highlight (e : event) : bool :=
  match e with LightingHighlightZone _ _ => true | _ => false end.
Definition is_subscribe (e : event) : bool :=
  match e with MqttSubscribe _ => true | _ => false end.
Definition is_delay (e : event) : bool :=
  match e with Delay _ => true | _ => false end.
Definition is_connection_attempt (e : event) : bool :=
  match e with WiFiBegin _ _ _ | MqttConnect _ _ _ => true | _ => false end.
Definition is_eccx08_begin (e : event) : bool :=
  match e with ECCX08Begin _ => true | _ => false end.

(** The calls of [HighlightZone] in a run, with what each answered. *)
Fixpoint highlight_calls (evs : list event) : list (list byte * bool) :=
  match evs with
  | [] => []
  | LightingHighlightZone command understood :: rest =>
      (command, understood) :: highlight_calls rest
  | _ :: rest => highlight_calls rest
  end.

(** A terminator scan stays inside [mqtt_buffer] when the last offset it
    reads is below the capacity. *)
Definition in_bounds (e : event) : bool :=
  match e with
  | BufferScan last => (Z.of_nat last <? max_mqtt_buffer_len)
  | _ => true
  end.

(** The reply of the spec for a command and a verdict. *)
Definition reply_text (command : list byte) (understood : bool) : list byte :=
  txt "the command string <" ++ command ++ txt "> was " ++
  (if understood then txt "processed successfully"
   else txt "processed unsuccessfully").

Definition events_topic (secrets : arduino_secrets) : list byte :=
  txt "devices/" ++ deviceId secrets ++ txt "/messages/events/".

Definition devicebound_topic (secrets : arduino_secrets) : list byte :=
  txt "devices/" ++ deviceId secrets ++ txt "/messages/devicebound/#".

(** The events of [onMessageReceived] up to its three-way test. *)
Definition announcement (topic : list byte) (messageSize : Z) : list event :=
  [SerialPrint (txt "Received a message with topic '");
   SerialPrint topic;
   SerialPrint (txt "', length ");
   SerialPrintInt messageSize].

(** The events of [onMessageReceived] for an accepted payload, given the
    memory after the copy and the two answers of [HighlightZone]. *)
Definition dispatch_events (secrets : arduino_secrets) (size : Z)
  (mem : list byte) (v1 v2 : bool) : list event :=
  let cap := Z.to_nat max_mqtt_buffer_len in
  let command := firstn (strnlen mem cap) mem in
  [MqttRead size;
   SerialPrintln (txt " bytes:");
   BufferScan (strlen mem);
   SerialPrint (c_str mem);
   SerialPrintln [];
   SerialPrintln [];
   BufferScan (strnlen_last_read mem cap);
   LightingHighlightZone command v1;
   MqttBeginMessage (events_topic secrets);
   MqttPrint (txt "the command string <");
   BufferScan (strlen mem);
   MqttPrint (c_str mem);
   MqttPrint (txt "> was ");
   MqttPrint (if v1 then txt "processed successfully"
              else txt "processed unsuccessfully");
   MqttEndMessage;
   BufferScan (strnlen_last_read mem cap);
   LightingHighlightZone command v2] ++
  (if v2 then
     [SerialPrintln (txt "the command string <");
      BufferScan (strlen mem);
      SerialPrint (c_str mem);
      SerialPrint (txt "> did not equate to any known operation")]
   else []).

(** No zero byte in a text. *)
Definition no_nul (s : list byte) : bool :=
  forallb (fun b => negb (is_nul b)) s.

(** What the Session Manager does on the network: connection attempts,
    back-off delays, (re)subscription. *)
Definition is_session_action (e : event) : bool :=
  is_connection_attempt e || is_delay e || is_subscribe e.

Definition is_poll (e : event) : bool :=
  match e with MqttPoll => true | _ => false end.

Definition is_session_up (e : event) : bool :=
  match e with MqttConnect _ _ true => true | _ => false end.

(** What runs only once [setup] is through: the Session Manager, the poll
    and the message dispatch. *)
Definition is_past_setup (e : event) : bool :=
  match e with
  | WiFiBegin _ _ _ | MqttConnect _ _ _ | MqttSubscribe _ | MqttPoll
  | MqttRead _ | MqttFlush | MqttBeginMessage _ | MqttPrint _
  | MqttEndMessage | LightingHighlightZone _ _ | BufferScan _
  | CertReconstruct _ _ | SslOnGetTime | SslSetEccSlot _
  | MqttSetId _ | MqttSetUsernamePassword _ _ | MqttOnMessage => true
  | _ => false
  end.

(** The subscription discipline of a run, read off its events.  [due] says
    that a session has been established and its subscription is still to
    come.  A session coming up while one is [due], a subscription that is not
    [due] or goes to another topic, and a poll while one is [due] all break
    it; otherwise the scan ends with what is [due] then. *)
Fixpoint subscription_scan (topic : list byte) (due : bool)
  (evs : list event) : option bool :=
  match evs with
  | [] => Some due
  | MqttConnect _ _ true :: rest =>
      if due then None else subscription_scan topic true rest
  | MqttSubscribe t :: rest =>
      if due && bytes_eqb t topic then subscription_scan topic false rest
      else None
  | MqttPoll :: rest =>
      if due then None else subscription_scan topic false rest
  | _ :: rest => subscription_scan topic due rest
  end.

(** The events [onMessageReceived] can emit. *)
Definition is_dispatch_event (e : event) : bool :=
  match e with
  | SerialPrint _ | SerialPrintInt _ | SerialPrintln _
  | MqttRead _ | MqttFlush | MqttBeginMessage _ | MqttPrint _
  | MqttEndMessage | LightingHighlightZone _ _ | BufferScan _ => true
  | _ => false
  end.

(** The events [subscription_scan] passes over. *)
Definition session_neutral (e : event) : bool :=
  negb (is_session_up e || is_subscribe e || is_poll e).

(** [m] emits only events that satisfy [p]. *)
Definition emits_only {C A} (p : event -> bool) (m : M C A) : Prop :=
  forall w, forallb p (events (m w)) = true.

(** [scans topic due m due']: from any world, the events of [m] pass
    [subscription_scan] from [due]; they leave it at [due'] when [m] returns
    and with nothing due when it does not. *)
Definition scans {C A} (topic : list byte) (due : bool) (m : M C A)
  (due' : bool) : Prop :=
  forall w,
    subscription_scan topic due (events (m w)) =
    Some (if returns (m w) then due' else false).

(** *** Concrete worlds *)

(** Two clients.  One whose [flush()] is that of an Arduino [Stream], which
    concerns the bytes going out: what is waiting to be read stays.  One
    whose [flush()] throws away what is waiting to be read. *)
Definition output_flush (pending : list byte) : list byte := pending.


Definition demo_secrets : arduino_secrets :=
  {| SECRET_WIFI_SSID := txt "home";
     SECRET_WIFI_PASS := txt "wifi-pass";
     SECRET_BROKER := txt "hub.azure-devices.net";
     SECRET_DEVICE_ID := txt "mkr1010";
     SECRET_DEVICE_PASSWORD := txt "sas-token" |}.

(** The world at power-up: [mqtt_buffer] is all zero ([= {0}]), [behind] is
    the RAM after it, nothing is connected; the client's [flush()] is the
    [Stream] one. *)
Definition power_up {C} (controller : C) (behind : list byte) : world C :=
  {| memory := repeat x00 (Z.to_nat max_mqtt_buffer_len) ++ behind;
     lightingController := controller;
     lastMillis := 0;
     rx_topic := [];
     rx := [];
     serial_ready := true;
     eccx08_present := true;
     wifi_connected := false;
     mqtt_connected := false;
     wifi_begin_results := [];
     mqtt_connect_results := [];
     happenings := [];
     clock := 0;
     flush_leaves := output_flush |}.

Definition zones_controller : TableController :=
  {| zone_table := known_zones; highlighted := [] |}.

(** The client holding [payload] for the callback, and the callback run on
    it, as [poll] does it. *)
Definition arriving {C} (payload : list byte) (w : world C) : world C :=
  set_rx (txt "devices/mkr1010/messages/devicebound/") payload w.

Definition deliver {C} `{ZoneLightingController C} (secrets : arduino_secrets)
  (payload : list byte) (w : world C) : outcome C unit :=
  onMessageReceived secrets (Z.of_nat (length payload)) (arriving payload w).

(** Power-up with the zone table, nothing behind the buffer. *)
Definition bench : world TableController := power_up zones_controller [].

(** Power-up with two bytes behind the buffer: a star, then a zero. *)
Definition bench_with_neighbour : world TableController :=
  power_up zones_controller [x2a; x00].

(** A world in which the session is made at the second attempt, lost, and
    made again, with a command arriving in between. *)
Definition two_sessions : world TableController :=
  {| memory := repeat x00 (Z.to_nat max_mqtt_buffer_len);
     lightingController := zones_controller;
     lastMillis := 0;
     rx_topic := [];
     rx := [];
     serial_ready := true;
     eccx08_present := true;
     wifi_connected := false;
     mqtt_connected := false;
     wifi_begin_results := [false; true];
     mqtt_connect_results := [ConnectFailed (-2); SessionUp; SessionUp];
     happenings :=
       [Message (txt "devices/mkr1010/messages/devicebound/") (txt "Zone2");
        SessionLost; Quiet];
     clock := 0;
     flush_leaves := output_flush |}.



(** Payloads with a zero byte in them, and one that fills the buffer. *)
Definition zero_inside : list byte := txt "Zone1" ++ x00 :: txt "Zone2".
Definition zero_early : list byte := txt "Zo" ++ x00 :: txt "ne1".
Definition full_of_A : list byte := repeat x41 256.

(** The world the handler leaves when [Zone12] was the first message after
    power-up. *)
Definition after_Zone12 : world TableController :=
  final (deliver demo_secrets (txt "Zone12") bench).

(** Link and session up, a command waiting for the next poll. *)
Definition connected_with_command : world TableController :=
  set_link true true
    (set_happenings
       [Message (txt "devices/mkr1010/messages/devicebound/") (txt "Zone4")]
       bench).

(** A board with no ECCX08 on it, for which the network would be there. *)
Definition board_without_ECCX08 : world TableController :=
  {| memory := repeat x00 (Z.to_nat max_mqtt_buffer_len);
     lightingController := zones_controller;
     lastMillis := 0;
     rx_topic := [];
     rx := [];
     serial_ready := true;
     eccx08_present := false;
     wifi_connected := false;
     mqtt_connected := false;
     wifi_begin_results := [true];
     mqtt_connect_results := [SessionUp];
     happenings := [Quiet];
     clock := 0;
     flush_leaves := output_flush |}.

(** *** More ways to read a run *)

Definition is_wifi_begin (e : event) : bool :=
  match e with WiFiBegin _ _ _ => true | _ => false end.
Definition is_mqtt_connect (e : event) : bool :=
  match e with MqttConnect _ _ _ => true | _ => false end.
Definition is_begin_message (e : event) : bool :=
  match e with MqttBeginMessage _ => true | _ => false end.
Definition is_end_message (e : event) : bool :=
  match e with MqttEndMessage => true | _ => false end.
Definition is_initialize (e : event) : bool :=
  match e with LightingInitialize => true | _ => false end.

(** Any call on [mqttClient]. *)
Definition is_mqtt_call (e : event) : bool :=
  match e with
  | MqttSetId _ | MqttSetUsernamePassword _ _ | MqttOnMessage
  | MqttConnect _ _ _ | MqttSubscribe _ | MqttPoll | MqttRead _ | MqttFlush
  | MqttBeginMessage _ | MqttPrint _ | MqttEndMessage => true
  | _ => false
  end.

(** The calls of [setup] that give the client its identity and callback. *)
Definition is_client_setup (e : event) : bool :=
  match e with
  | MqttSetId _ | MqttSetUsernamePassword _ _ | MqttOnMessage => true
  | _ => false
  end.

(** The error codes a run prints with [Serial.println(connectError())]. *)
Fixpoint printed_error_codes (evs : list event) : list Z :=
  match evs with
  | [] => []
  | SerialPrintlnInt n :: rest => n :: printed_error_codes rest
  | _ :: rest => printed_error_codes rest
  end.

(** The constants of the sketch, as they show in its events: the back-off
    and start-up delay, the baud rate, the WiFi credentials, the broker and
    its port, the two topics. *)
Definition well_addressed (secrets : arduino_secrets) (e : event) : bool :=
  match e with
  | Delay ms => ms =? 5000
  | SerialBegin baud => baud =? 9600
  | WiFiBegin s p _ => bytes_eqb s (ssid secrets) && bytes_eqb p (pass secrets)
  | MqttConnect host port _ =>
      bytes_eqb host (broker secrets) && (port =? 8883)
  | MqttSubscribe topic => bytes_eqb topic (devicebound_topic secrets)
  | MqttBeginMessage topic => bytes_eqb topic (events_topic secrets)
  | _ => true
  end.

(** The user name [setup] builds for the hub. *)
Definition hub_username (secrets : arduino_secrets) : list byte :=
  broker secrets ++ txt "/" ++ deviceId secrets ++ txt "/api-version=2018-06-30".

(** The events of the two connect functions. *)
Definition is_connect_phase_event (e : event) : bool :=
  match e with
  | SerialPrint _ | SerialPrintln _ | SerialPrintlnInt _
  | WiFiBegin _ _ _ | MqttConnect _ _ _ | MqttSubscribe _ | Delay _ => true
  | _ => false
  end.

(** The events of [loop]. *)
Definition is_loop_event (e : event) : bool :=
  is_connect_phase_event e || is_dispatch_event e || is_poll e.

(** The shape of one round of [loop]: events of the connect functions,
    then either nothing more, the round not returning, or the poll and what
    the dispatch of its message emits. *)
Definition round_shape {C A} (r : outcome C A) : Prop :=
  exists connecting,
    forallb is_connect_phase_event connecting = true /\
    ((returns r = false /\ events r = connecting) \/
     (exists dispatch,
        returns r = true /\
        events r = connecting ++ MqttPoll :: dispatch /\
        forallb is_dispatch_event dispatch = true)).

(** The events of [setup]. *)
Definition is_setup_event (e : event) : bool :=
  match e with
  | Delay _ | SerialBegin _ | SerialPrint _ | SerialPrintln _
  | LightingInitialize | ECCX08Begin _ | CertReconstruct _ _ | SslOnGetTime
  | SslSetEccSlot _ | MqttSetId _ | MqttSetUsernamePassword _ _
  | MqttOnMessage => true
  | _ => false
  end.

(** How the message traffic of a run adds up. *)
Definition tally (evs : list event) : Prop :=
  count is_begin_message evs = count is_read evs /\
  count is_end_message evs = count is_read evs /\
  count is_highlight evs = (2 * count is_read evs)%nat.

(** [m] emits only runs of events that satisfy [P]. *)
Definition always {C A} (P : list event -> Prop) (m : M C A) : Prop :=
  forall w, P (events (m w)).

(** From offset [k] to the end of [mqtt_buffer], memory holds zero bytes. *)
Definition terminated_from (k : nat) (mem : list byte) : Prop :=
  forall i, (k <= i < Z.to_nat max_mqtt_buffer_len)%nat ->
            nth_error mem i = Some x00.

(** The payloads are texts without zero byte, shorter than the buffer, none
    empty, and none shorter than the one before it ([k]: the length to
    start from). *)
Fixpoint growing (k : nat) (payloads : list (list byte)) : bool :=
  match payloads with
  | [] => true
  | p :: rest =>
      (k <=? length p)%nat && (0 <? length p)%nat &&
      (Z.of_nat (length p) <? max_mqtt_buffer_len) && no_nul p &&
      growing (length p) rest
  end.

(** The callback run on one payload after the other; what each run
    publishes. *)
Fixpoint deliver_each {C} `{ZoneLightingController C}
  (secrets : arduino_secrets) (payloads : list (list byte)) (w : world C)
  : list (list (list byte * list byte)) :=
  match payloads with
  | [] => []
  | p :: rest =>
      let r := deliver secrets p w in
      published (events r) :: deliver_each secrets rest (final r)
  end.

(** A board on which the link comes up at the third attempt and the session
    at the second, the first refused with code [-2]. *)
Definition slow_network : world TableController :=
  {| memory := repeat x00 (Z.to_nat max_mqtt_buffer_len);
     lightingController := zones_controller;
     lastMillis := 0;
     rx_topic := [];
     rx := [];
     serial_ready := true;
     eccx08_present := true;
     wifi_connected := false;
     mqtt_connected := false;
     wifi_begin_results := [false; false; true];
     mqtt_connect_results := [ConnectFailed (-2); SessionUp];
     happenings := [Quiet];
     clock := 0;
     flush_leaves := output_flush |}.

(** A board on which nothing ever connects, as far as it is watched. *)
Definition no_network : world TableController :=
  {| memory := repeat x00 (Z.to_nat max_mqtt_buffer_len);
     lightingController := zones_controller;
     lastMillis := 0;
     rx_topic := [];
     rx := [];
     serial_ready := true;
     eccx08_present := true;
     wifi_connected := false;
     mqtt_connected := false;
     wifi_begin_results := [false; false];
     mqtt_connect_results := [ConnectFailed (-1); ConnectFailed (-2)];
     happenings := [Quiet];
     clock := 0;
     flush_leaves := output_flush |}.

(** Link up, session down, and the broker refusing. *)
Definition broker_refuses : world TableController :=
  set_link true false no_network.

(** Connected, with [millis()] just wrapped around: the last reading was
    taken 6000 ms ago, 1000 ms before the wrap. *)
Definition after_rollover : world TableController :=
  set_clock (2 ^ 32 + 5000)
    (set_lastMillis (2 ^ 32 - 1000) (set_link true true bench)).

(** ** Properties *)

Section HandlerFacts.

Context {C : Type} {ZL : ZoneLightingController C}.
Variable secrets : arduino_secrets.

Lemma onMessageReceived_empty (messageSize : Z) (w : world C) :
  rx w = [] ->
  onMessageReceived secrets messageSize w =
  Ret tt w (announcement (rx_topic w) messageSize ++
            [SerialPrintln (txt "nothing in mqtt buffer")]).
Proof.
  intros Hrx.
  unfold onMessageReceived, bind, mqttClient_available, mqttClient_messageTopic,
    Serial_print, Serial_print_int, Serial_println, get, emit.
  rewrite Hrx. reflexivity.
Qed.

Lemma onMessageReceived_oversized (messageSize : Z) (w : world C) :
  max_mqtt_buffer_len < Z.of_nat (length (rx w)) ->
  onMessageReceived secrets messageSize w =
  Ret tt (set_rx (rx_topic w) (flush_leaves w (rx w)) w)
    (announcement (rx_topic w) messageSize ++
     [SerialPrintln
        (txt "incoming message too big, update max_mqtt_buffer_len and recompile");
      MqttFlush]).
Proof.
  intros Hbig.
  cbv beta iota zeta delta
    [onMessageReceived bind mqttClient_available mqttClient_messageTopic
     mqttClient_flush Serial_print Serial_print_int Serial_println get emit
     modify].
  unfold max_mqtt_buffer_len in *.
  destruct (Z.eqb_spec (Z.of_nat (length (rx w))) 0) as [E | _]; [lia |].
  destruct (Z.gtb_spec (Z.of_nat (length (rx w))) 256) as [_ | E]; [| lia].
  reflexivity.
Qed.

(** The world [onMessageReceived] leaves behind an accepted payload. *)
Lemma onMessageReceived_accepted (messageSize : Z) (w : world C) :
  0 < Z.of_nat (length (rx w)) <= max_mqtt_buffer_len ->
  let mem := rx w ++ skipn (length (rx w)) (memory w) in
  let command := firstn (strnlen mem (Z.to_nat max_mqtt_buffer_len)) mem in
  let r1 := HighlightZone (lightingController w) command in
  let r2 := HighlightZone (snd r1) command in
  onMessageReceived secrets messageSize w =
  Ret tt
    (set_lightingController (snd r2)
       (set_rx (rx_topic w) [] (set_memory mem w)))
    (announcement (rx_topic w) messageSize ++
     dispatch_events secrets (Z.of_nat (length (rx w))) mem (fst r1) (fst r2)).
Proof.
  intros Hlen mem command r1 r2.
  cbv beta iota zeta delta
    [onMessageReceived bind mqttClient_available mqttClient_messageTopic
     mqttClient_read_mqtt_buffer mqtt_buffer_c_str mqtt_buffer_string
     lightingController_HighlightZone mqttClient_beginMessage
     mqttClient_print mqttClient_endMessage
     Serial_print Serial_print_int Serial_println get emit modify ret].
  unfold max_mqtt_buffer_len in *.
  destruct (Z.eqb_spec (Z.of_nat (length (rx w))) 0) as [E | _]; [lia |].
  destruct (Z.gtb_spec (Z.of_nat (length (rx w))) 256) as [E | _]; [lia |].
  rewrite Nat2Z.id, firstn_all, skipn_all.
  cbn [memory set_memory set_rx lightingController set_lightingController].
  fold mem. fold command.
  subst r1 r2.
  destruct (HighlightZone (lightingController w) command) as [v1 c1].
  cbn [fst snd memory set_memory set_rx lightingController
       set_lightingController].
  fold mem. fold command.
  destruct (HighlightZone c1 command) as [v2 c2].
  destruct v2; reflexivity.
Qed.

End HandlerFacts.

(** *** C strings *)

Lemma strnlen_strlen_firstn (mem : list byte) (n : nat) :
  strnlen mem n = strlen (firstn n mem).
Proof.
  revert n; induction mem as [| b rest IH]; intros [| n]; simpl;
    try reflexivity.
  destruct (is_nul b); [reflexivity | now rewrite IH].
Qed.

Lemma strlen_le_length (mem : list byte) : (strlen mem <= length mem)%nat.
Proof.
  induction mem as [| b rest IH]; simpl; [lia |].
  destruct (is_nul b); lia.
Qed.

Lemma strlen_no_nul (s : list byte) : no_nul s = true -> strlen s = length s.
Proof.
  induction s as [| b rest IH]; simpl; [reflexivity |].
  destruct (is_nul b); simpl; [discriminate |].
  intros H; now rewrite IH.
Qed.

Lemma strlen_app_no_nul (s rest : list byte) :
  no_nul s = true -> strlen (s ++ rest) = (length s + strlen rest)%nat.
Proof.
  induction s as [| b s' IH]; simpl; [reflexivity |].
  destruct (is_nul b); simpl; [discriminate |].
  intros H; now rewrite IH.
Qed.

Lemma c_str_no_nul (s : list byte) : no_nul s = true -> c_str s = s.
Proof.
  intros H. unfold c_str. rewrite (strlen_no_nul s H). apply firstn_all.
Qed.

Lemma c_str_cons (b : byte) (rest : list byte) :
  c_str (b :: rest) = if is_nul b then [] else b :: c_str rest.
Proof. unfold c_str; simpl. now destruct (is_nul b). Qed.

(** A text stored with a zero byte behind it reads back as itself, up to its
    own first zero byte. *)
Lemma c_str_app_terminated (s rest : list byte) :
  c_str (s ++ x00 :: rest) = c_str s.
Proof.
  induction s as [| b s' IH].
  - reflexivity.
  - simpl app. rewrite !c_str_cons, IH. reflexivity.
Qed.

(** [std::string(p, strnlen(p, n))] is the C string of the first [n] bytes. *)
Lemma firstn_strnlen_c_str (mem : list byte) (n : nat) :
  firstn (strnlen mem n) mem = c_str (firstn n mem).
Proof.
  revert n; induction mem as [| b rest IH]; intros [| n]; simpl;
    try reflexivity.
  rewrite c_str_cons. destruct (is_nul b); [reflexivity |].
  simpl. now rewrite IH.
Qed.

Lemma strnlen_last_read_in_bounds (mem : list byte) (n : nat) :
  (0 < n)%nat -> (strnlen_last_read mem n < n)%nat.
Proof.
  intros Hn. unfold strnlen_last_read.
  destruct (Nat.ltb_spec (strnlen mem n) n); lia.
Qed.

Lemma bytes_eqb_refl (s : list byte) : bytes_eqb s s = true.
Proof.
  induction s as [| b s' IH]; simpl; [reflexivity |].
  rewrite IH, (Byte.byte_dec_lb eq_refl). reflexivity.
Qed.

Lemma bytes_eqb_eq (a b : list byte) : bytes_eqb a b = true -> a = b.
Proof.
  revert b; induction a as [| x a' IH]; intros [| y b']; simpl;
    try discriminate; [reflexivity |].
  intros H. apply andb_true_iff in H as [Hxy Hrest].
  f_equal; [now apply Byte.byte_dec_bl | now apply IH].
Qed.

(** *** Reading the events of an accepted payload *)

Lemma published_dispatch (secrets : arduino_secrets) (topic : list byte)
  (messageSize size : Z) (mem : list byte) (v1 v2 : bool) :
  published (announcement topic messageSize ++
             dispatch_events secrets size mem v1 v2) =
  [(events_topic secrets, reply_text (c_str mem) v1)].
Proof.
  unfold published, reply_text.
  destruct v2; cbn [announcement dispatch_events app published_from];
    rewrite <- !app_assoc; reflexivity.
Qed.

Lemma highlight_calls_dispatch (secrets : arduino_secrets) (topic : list byte)
  (messageSize size : Z) (mem : list byte) (v1 v2 : bool) :
  highlight_calls (announcement topic messageSize ++
                   dispatch_events secrets size mem v1 v2) =
  let command := c_str (firstn (Z.to_nat max_mqtt_buffer_len) mem) in
  [(command, v1); (command, v2)].
Proof.
  cbv zeta. rewrite <- firstn_strnlen_c_str.
  destruct v2; reflexivity.
Qed.

Lemma skipn_nth_error {A} (l : list A) (n : nat) (x : A) :
  nth_error l n = Some x -> exists rest, skipn n l = x :: rest.
Proof.
  revert l; induction n as [| n IH]; intros [| y l]; simpl; try discriminate.
  - intros [= ->]. now exists l.
  - apply IH.
Qed.

(** The buffer as a text once an accepted payload sits in it, when the
    payload fills the array or a zero byte follows it. *)
Lemma c_str_buffer_after_copy (payload old : list byte) :
  (length payload <= Z.to_nat max_mqtt_buffer_len)%nat ->
  length payload = Z.to_nat max_mqtt_buffer_len \/
  nth_error old (length payload) = Some x00 ->
  c_str (firstn (Z.to_nat max_mqtt_buffer_len)
           (payload ++ skipn (length payload) old)) = c_str payload.
Proof.
  intros Hle [Hfull | Hterm].
  - rewrite <- Hfull, firstn_app, firstn_all, Nat.sub_diag, firstn_O, app_nil_r.
    reflexivity.
  - destruct (skipn_nth_error _ _ _ Hterm) as [rest ->].
    rewrite firstn_app, firstn_all2 by lia.
    destruct (Z.to_nat max_mqtt_buffer_len - length payload)%nat as [| k] eqn:E.
    + simpl. rewrite app_nil_r. reflexivity.
    + simpl firstn. apply c_str_app_terminated.
Qed.

Section Dispatch.

Context {C : Type} {ZL : ZoneLightingController C}.
Variable secrets : arduino_secrets.


(** C3, as amended.  For every processed message ([0 < length <= 256])
    exactly one reply is published, on [devices/{deviceId}/messages/events/],
    and its text is [the command string <] + text + [> was ] +
    [processed successfully] when the first [HighlightZone] call answered
    true, [processed unsuccessfully] when it answered false.  When a zero
    byte follows the payload in memory, the text between the brackets is the
    payload up to its first zero byte: the original command whenever that
    has no zero byte in it. *)
Theorem reply_format (messageSize : Z) (w : world C) :
  0 < Z.of_nat (length (rx w)) <= max_mqtt_buffer_len ->
  let r := onMessageReceived secrets messageSize w in
  exists text command verdict later,
    highlight_calls (events r) = (command, verdict) :: later /\
    published (events r) = [(events_topic secrets, reply_text text verdict)] /\
    (nth_error (memory w) (length (rx w)) = Some x00 ->
       text = c_str (rx w) /\ (no_nul (rx w) = true -> text = rx w)).
Proof.
  intros Hfit r. subst r.
  rewrite (onMessageReceived_accepted secrets messageSize w Hfit).
  cbn [events].
  rewrite published_dispatch, highlight_calls_dispatch. cbv zeta.
  eexists _, _, _, _. split; [reflexivity |]. split; [reflexivity |].
  intros Hterm.
  destruct (skipn_nth_error _ _ _ Hterm) as [rest ->].
  rewrite c_str_app_terminated.
  split; [reflexivity |]. apply c_str_no_nul.
Qed.

(** C5, as amended.  The string handed to [HighlightZone] is cut by a scan
    for the terminator, capped at the capacity
    ([strnlen(mqtt_buffer, max_mqtt_buffer_len)]), not by the recorded length.
    For every accepted payload that fills the buffer or is followed in it by a
    zero byte, both calls receive the payload up to its first zero byte: all
    of it when it has none, and never more than 256 bytes. *)
Theorem command_string_by_terminator (messageSize : Z) (w : world C) :
  0 < Z.of_nat (length (rx w)) <= max_mqtt_buffer_len ->
  Z.of_nat (length (rx w)) = max_mqtt_buffer_len \/
  nth_error (memory w) (length (rx w)) = Some x00 ->
  let r := onMessageReceived secrets messageSize w in
  exists v1 v2,
    highlight_calls (events r) = [(c_str (rx w), v1); (c_str (rx w), v2)] /\
    (no_nul (rx w) = true -> c_str (rx w) = rx w) /\
    Z.of_nat (length (c_str (rx w))) <= max_mqtt_buffer_len.
Proof.
  intros Hfit Hshape r. subst r.
  rewrite (onMessageReceived_accepted secrets messageSize w Hfit).
  cbn [events]. rewrite highlight_calls_dispatch. cbv zeta.
  rewrite c_str_buffer_after_copy.
  - eexists _, _. split; [reflexivity |]. split; [apply c_str_no_nul |].
    unfold c_str. rewrite length_firstn. lia.
  - lia.
  - destruct Hshape as [Hfull | Hterm]; [left | now right].
    rewrite <- Hfull. now rewrite Nat2Z.id.
Qed.

(** C10.  For every accepted payload the handler calls [HighlightZone] a
    second time once the reply is sent, with the command string of the first
    call, and prints [> did not equate to any known operation] exactly when
    that second call answers true. *)
Theorem second_HighlightZone_call (messageSize : Z) (w : world C) :
  0 < Z.of_nat (length (rx w)) <= max_mqtt_buffer_len ->
  let r := onMessageReceived secrets messageSize w in
  let mem := rx w ++ skipn (length (rx w)) (memory w) in
  let command := firstn (strnlen mem (Z.to_nat max_mqtt_buffer_len)) mem in
  let first := HighlightZone (lightingController w) command in
  let second := HighlightZone (snd first) command in
  exists before scan diagnostic,
    events r =
      before ++
      [MqttEndMessage; scan; LightingHighlightZone command (fst second)] ++
      diagnostic /\
    highlight_calls before = [(command, fst first)] /\
    published (before ++ [MqttEndMessage]) =
      [(events_topic secrets, reply_text (c_str mem) (fst first))] /\
    highlight_calls diagnostic = [] /\
    (In (SerialPrint (txt "> did not equate to any known operation"))
        diagnostic <-> fst second = true) /\
    (fst second = false -> diagnostic = []).
Proof.
  intros Hfit r mem command first second. subst r.
  rewrite (onMessageReceived_accepted secrets messageSize w Hfit).
  fold mem. fold command. fold first. fold second.
  cbn [events]. unfold dispatch_events, announcement.
  fold command.
  eexists (_ :: _ :: _ :: _ :: _ :: _ :: _ :: _ :: _ :: _ :: _ :: _ :: _
             :: _ :: _ :: _ :: _ :: _ :: []), _, _.
  split; [cbn [app]; reflexivity |].
  split; [reflexivity |].
  split.
  { unfold published, reply_text. cbn [app published_from].
    rewrite <- !app_assoc. reflexivity. }
  destruct (fst second).
  - split; [reflexivity |]. split; [| discriminate].
    split; [reflexivity |]. intros _. cbn. auto.
  - split; [reflexivity |]. split; [| reflexivity].
    split; [intros [] | discriminate].
Qed.

End Dispatch.

(** *** The handler on concrete messages *)



Lemma reply_format_witness :
  0 < Z.of_nat (length (rx (arriving (txt "Zone1") bench))) <= max_mqtt_buffer_len /\
  exists text command verdict later,
    highlight_calls (events (deliver demo_secrets (txt "Zone1") bench)) =
      (command, verdict) :: later /\
    published (events (deliver demo_secrets (txt "Zone1") bench)) =
      [(events_topic demo_secrets, reply_text text verdict)] /\
    (nth_error (memory (arriving (txt "Zone1") bench))
       (length (rx (arriving (txt "Zone1") bench))) = Some x00 ->
     text = c_str (rx (arriving (txt "Zone1") bench)) /\
     (no_nul (rx (arriving (txt "Zone1") bench)) = true ->
      text = rx (arriving (txt "Zone1") bench))).
Proof.
  assert (H : 0 < Z.of_nat (length (rx (arriving (txt "Zone1") bench)))
              <= max_mqtt_buffer_len)
    by (vm_compute; split; [reflexivity | discriminate]).
  split; [exact H |].
  exact (reply_format demo_secrets 5 (arriving (txt "Zone1") bench) H).
Defined.

(** C3, the claim as stated fails: a payload with a zero byte in it is
    accepted and answered, and the reply carries the text before the zero
    byte, not the payload. *)
Lemma reply_cut_at_zero_byte :
  0 < Z.of_nat (length zero_inside) <= max_mqtt_buffer_len /\
  published (events (deliver demo_secrets zero_inside bench)) =
    [(events_topic demo_secrets, reply_text (txt "Zone1") true)] /\
  forall verdict,
    published (events (deliver demo_secrets zero_inside bench)) <>
    [(events_topic demo_secrets, reply_text zero_inside verdict)].
Proof.
  vm_compute. split; [split; [reflexivity | discriminate] |].
  split; [reflexivity |]. intros []; discriminate.
Qed.

Lemma command_string_by_terminator_witness :
  0 < Z.of_nat (length (rx (arriving (txt "Zone2") bench))) <= max_mqtt_buffer_len /\
  exists v1 v2,
    highlight_calls (events (deliver demo_secrets (txt "Zone2") bench)) =
      [(c_str (txt "Zone2"), v1); (c_str (txt "Zone2"), v2)] /\
    (no_nul (txt "Zone2") = true -> c_str (txt "Zone2") = txt "Zone2") /\
    Z.of_nat (length (c_str (txt "Zone2"))) <= max_mqtt_buffer_len.
Proof.
  assert (H : 0 < Z.of_nat (length (rx (arriving (txt "Zone2") bench)))
              <= max_mqtt_buffer_len)
    by (vm_compute; split; [reflexivity | discriminate]).
  split; [exact H |].
  apply (command_string_by_terminator demo_secrets 5
           (arriving (txt "Zone2") bench) H).
  right. reflexivity.
Defined.

(** C5, the claim as stated fails: of an accepted payload with a zero byte
    in it, [HighlightZone] receives the part before the zero byte only. *)
Lemma command_string_cut_at_zero_byte :
  0 < Z.of_nat (length zero_early) <= max_mqtt_buffer_len /\
  highlight_calls (events (deliver demo_secrets zero_early bench)) =
    [(txt "Zo", false); (txt "Zo", false)] /\
  forall command verdict,
    In (command, verdict)
       (highlight_calls (events (deliver demo_secrets zero_early bench))) ->
    command <> zero_early.
Proof.
  vm_compute. split; [split; [reflexivity | discriminate] |].
  split; [reflexivity |].
  intros command verdict [H | [H | []]]; inversion H; discriminate.
Qed.

Lemma second_HighlightZone_call_witness :
  0 < Z.of_nat (length (rx (arriving (txt "Zone3") bench))) <= max_mqtt_buffer_len /\
  exists before scan diagnostic,
    events (deliver demo_secrets (txt "Zone3") bench) =
      before ++
      [MqttEndMessage; scan; LightingHighlightZone (txt "Zone3") true] ++
      diagnostic /\
    highlight_calls before = [(txt "Zone3", true)] /\
    In (SerialPrint (txt "> did not equate to any known operation")) diagnostic.
Proof.
  assert (H : 0 < Z.of_nat (length (rx (arriving (txt "Zone3") bench)))
              <= max_mqtt_buffer_len)
    by (vm_compute; split; [reflexivity | discriminate]).
  split; [exact H |].
  destruct (second_HighlightZone_call demo_secrets 5
              (arriving (txt "Zone3") bench) H)
    as (before & scan & diagnostic & Hev & Hcalls & _ & _ & Hdiag & _).
  exists before, scan, diagnostic.
  split; [exact Hev |]. split; [exact Hcalls |].
  apply Hdiag. reflexivity.
Defined.

(** *** The zone table *)

Lemma table_HighlightZone_known (c : TableController) (command : list byte)
  (zone : ZoneSelector) :
  route (zone_table c) command = Some zone ->
  table_HighlightZone c command =
  (true, {| zone_table := zone_table c; highlighted := highlighted c ++ [zone] |}).
Proof. intros H. unfold table_HighlightZone. now rewrite H. Qed.

Lemma table_HighlightZone_unknown (c : TableController) (command : list byte) :
  route (zone_table c) command = None ->
  table_HighlightZone c command = (false, c).
Proof. intros H. unfold table_HighlightZone. now rewrite H. Qed.

Lemma route_in_table (table : list (list byte * ZoneSelector))
  (command : list byte) (zone : ZoneSelector) :
  route table command = Some zone -> In (command, zone) table.
Proof.
  induction table as [| [name z] rest IH]; simpl; [discriminate |].
  destruct (bytes_eqb name command) eqn:E.
  - intros [= ->]. left. now rewrite (bytes_eqb_eq _ _ E).
  - intros H. right. now apply IH.
Qed.

Lemma route_empty_command : route known_zones [] = None.
Proof. reflexivity. Qed.

Section CallCount.

Context {C : Type} {ZL : ZoneLightingController C}.
Variable secrets : arduino_secrets.

(** Whatever the controller and whatever the text, an accepted payload makes
    the handler call [HighlightZone] twice. *)
Lemma HighlightZone_called_twice (messageSize : Z) (w : world C) :
  0 < Z.of_nat (length (rx w)) <= max_mqtt_buffer_len ->
  count is_highlight (events (onMessageReceived secrets messageSize w)) = 2%nat.
Proof.
  intros Hfit.
  rewrite (onMessageReceived_accepted secrets messageSize w Hfit).
  cbn [events].
  destruct (fst (HighlightZone (snd _) _)); reflexivity.
Qed.

End CallCount.

(** With the zone table for a controller, a command of the vocabulary is
    acted on twice for one message; an unknown one is looked up twice and
    acted on not at all. *)
Lemma known_command_highlights_twice (secrets : arduino_secrets)
  (messageSize : Z) (w : world TableController) (zone : ZoneSelector) :
  0 < Z.of_nat (length (rx w)) <= max_mqtt_buffer_len ->
  nth_error (memory w) (length (rx w)) = Some x00 ->
  route (zone_table (lightingController w)) (c_str (rx w)) = Some zone ->
  let r := onMessageReceived secrets messageSize w in
  highlight_calls (events r) = [(c_str (rx w), true); (c_str (rx w), true)] /\
  highlighted (lightingController (final r)) =
    highlighted (lightingController w) ++ [zone; zone].
Proof.
  intros Hfit Hterm Hroute r. subst r.
  rewrite (onMessageReceived_accepted secrets messageSize w Hfit).
  cbn [events final lightingController set_lightingController].
  rewrite highlight_calls_dispatch. cbv zeta.
  rewrite firstn_strnlen_c_str, c_str_buffer_after_copy by (lia || now right).
  cbn [HighlightZone TableController_ZoneLightingController].
  rewrite (table_HighlightZone_known _ _ _ Hroute). cbn [fst snd].
  rewrite (table_HighlightZone_known _ _ zone) by exact Hroute.
  cbn [fst snd highlighted]. rewrite <- app_assoc. split; reflexivity.
Qed.

Lemma unknown_command_highlights_nothing (secrets : arduino_secrets)
  (messageSize : Z) (w : world TableController) :
  0 < Z.of_nat (length (rx w)) <= max_mqtt_buffer_len ->
  nth_error (memory w) (length (rx w)) = Some x00 ->
  route (zone_table (lightingController w)) (c_str (rx w)) = None ->
  let r := onMessageReceived secrets messageSize w in
  highlight_calls (events r) = [(c_str (rx w), false); (c_str (rx w), false)] /\
  lightingController (final r) = lightingController w.
Proof.
  intros Hfit Hterm Hroute r. subst r.
  rewrite (onMessageReceived_accepted secrets messageSize w Hfit).
  cbn [events final lightingController set_lightingController].
  rewrite highlight_calls_dispatch. cbv zeta.
  rewrite firstn_strnlen_c_str, c_str_buffer_after_copy by (lia || now right).
  cbn [HighlightZone TableController_ZoneLightingController].
  rewrite (table_HighlightZone_unknown _ _ Hroute). cbn [fst snd].
  rewrite (table_HighlightZone_unknown _ _ Hroute).
  split; reflexivity.
Qed.

(** C2, the code at the failing input.  One message with the payload
    [Zone1], first after power-up: [HighlightZone] is called twice with
    [Zone1], answers true both times, and zone 1 is highlighted twice, while
    one reply goes out. *)
Theorem Zone1_highlighted_twice :
  highlight_calls (events (deliver demo_secrets (txt "Zone1") bench)) =
    [(txt "Zone1", true); (txt "Zone1", true)] /\
  highlighted
    (lightingController (final (deliver demo_secrets (txt "Zone1") bench))) =
    [Zone1; Zone1] /\
  published (events (deliver demo_secrets (txt "Zone1") bench)) =
    [(events_topic demo_secrets, reply_text (txt "Zone1") true)].
Proof. vm_compute. repeat split. Qed.

(** Whatever the controller answers: after a message [Zone12] the reply to a
    message [Zone1] echoes [Zone12], and so differs from the reply the same
    payload gets as the first message after power-up. *)
Lemma stale_bytes_reach_reply {C : Type} {ZL : ZoneLightingController C}
  (secrets : arduino_secrets) (c : C) :
  let fresh := deliver secrets (txt "Zone1") (power_up c []) in
  let earlier := final (deliver secrets (txt "Zone12") (power_up c [])) in
  let stale := deliver secrets (txt "Zone1") earlier in
  (exists v,
     published (events fresh) =
       [(events_topic secrets, reply_text (txt "Zone1") v)]) /\
  (exists v,
     published (events stale) =
       [(events_topic secrets, reply_text (txt "Zone12") v)]) /\
  published (events fresh) <> published (events stale).
Proof.
  intros fresh earlier stale.
  assert (Hfresh : exists v,
             published (events fresh) =
               [(events_topic secrets, reply_text (txt "Zone1") v)]).
  { subst fresh. unfold deliver.
    rewrite onMessageReceived_accepted
      by (vm_compute; split; [reflexivity | discriminate]).
    cbn [events]. rewrite published_dispatch. eexists. reflexivity. }
  assert (Hstale : exists v,
             published (events stale) =
               [(events_topic secrets, reply_text (txt "Zone12") v)]).
  { subst stale earlier. unfold deliver at 2.
    rewrite onMessageReceived_accepted
      by (vm_compute; split; [reflexivity | discriminate]).
    cbn [final]. unfold deliver.
    rewrite onMessageReceived_accepted
      by (vm_compute; split; [reflexivity | discriminate]).
    cbn [events]. rewrite published_dispatch. eexists. reflexivity. }
  split; [exact Hfresh |]. split; [exact Hstale |].
  destruct Hfresh as [v ->], Hstale as [v' ->].
  intros H. destruct v, v'; vm_compute in H; discriminate.
Qed.

(** C4, the code at the failing input.  The same payload [Zone1], once as
    the first message after power-up and once after a message [Zone12]: the
    sixth byte of the earlier message is still in the buffer, so the second
    run routes and echoes [Zone12] and answers with the other verdict. *)
Theorem stale_bytes_reach_reply_and_verdict :
  published (events (deliver demo_secrets (txt "Zone1") bench)) =
    [(events_topic demo_secrets, reply_text (txt "Zone1") true)] /\
  published (events (deliver demo_secrets (txt "Zone1") after_Zone12)) =
    [(events_topic demo_secrets, reply_text (txt "Zone12") false)] /\
  highlight_calls (events (deliver demo_secrets (txt "Zone1") bench)) =
    [(txt "Zone1", true); (txt "Zone1", true)] /\
  highlight_calls (events (deliver demo_secrets (txt "Zone1") after_Zone12)) =
    [(txt "Zone12", false); (txt "Zone12", false)] /\
  lightingController after_Zone12 = lightingController bench /\
  firstn 7 (memory after_Zone12) = txt "Zone12" ++ [x00].
Proof. vm_compute. repeat split. Qed.

(** *** Reads of the buffer *)

Lemma in_bounds_dispatch (secrets : arduino_secrets) (topic : list byte)
  (messageSize size : Z) (mem : list byte) (v1 v2 : bool) :
  forallb in_bounds (announcement topic messageSize ++
                     dispatch_events secrets size mem v1 v2) =
  (Z.of_nat (strlen mem) <? max_mqtt_buffer_len).
Proof.
  assert (Hn : (Z.of_nat (strnlen_last_read mem (Z.to_nat max_mqtt_buffer_len))
                <? max_mqtt_buffer_len) = true).
  { apply Z.ltb_lt.
    pose proof (strnlen_last_read_in_bounds mem (Z.to_nat max_mqtt_buffer_len)).
    unfold max_mqtt_buffer_len in *. lia. }
  destruct v2; cbn [announcement dispatch_events app forallb in_bounds];
    rewrite Hn;
    destruct (Z.of_nat (strlen mem) <? max_mqtt_buffer_len); reflexivity.
Qed.

Section BufferReads.

Context {C : Type} {ZL : ZoneLightingController C}.
Variable secrets : arduino_secrets.

(** A payload shorter than the buffer with a zero byte behind it: every scan
    stays inside the array. *)
Lemma terminated_payload_read_in_bounds (messageSize : Z) (w : world C) :
  0 < Z.of_nat (length (rx w)) < max_mqtt_buffer_len ->
  nth_error (memory w) (length (rx w)) = Some x00 ->
  forallb in_bounds (events (onMessageReceived secrets messageSize w)) = true.
Proof.
  intros Hfit Hterm.
  rewrite (onMessageReceived_accepted secrets messageSize w) by lia.
  cbn [events]. rewrite in_bounds_dispatch. apply Z.ltb_lt.
  destruct (skipn_nth_error _ _ _ Hterm) as [rest ->].
  pose proof (strlen_le_length (rx w)) as Hle.
  assert (Hs : (strlen (rx w ++ x00 :: rest) <= length (rx w))%nat).
  { clear. induction (rx w) as [| b s IH]; simpl; [lia |].
    destruct (is_nul b); lia. }
  lia.
Qed.

(** A payload of 256 bytes, none of them zero: the scans of the
    [print(mqtt_buffer)] calls go on past the last byte of the array. *)
Lemma full_payload_read_out_of_bounds (messageSize : Z) (w : world C) :
  Z.of_nat (length (rx w)) = max_mqtt_buffer_len ->
  no_nul (rx w) = true ->
  forallb in_bounds (events (onMessageReceived secrets messageSize w)) = false.
Proof.
  intros Hfull Hnn.
  rewrite (onMessageReceived_accepted secrets messageSize w)
    by (unfold max_mqtt_buffer_len in *; lia).
  cbn [events]. rewrite in_bounds_dispatch. apply Z.ltb_ge.
  rewrite strlen_app_no_nul by exact Hnn. lia.
Qed.

End BufferReads.

(** C9, the code at the failing input.  A payload of 256 letters [A], the
    first message after power-up, with a star and a zero byte behind the
    buffer: the payload is accepted, the scans of [Serial.print(mqtt_buffer)]
    and [mqttClient.print(mqtt_buffer)] read up to offset 257, and the star
    from behind the buffer goes out in the reply. *)
Theorem full_buffer_scanned_past_capacity :
  0 < Z.of_nat (length full_of_A) <= max_mqtt_buffer_len /\
  no_nul full_of_A = true /\
  filter (fun e => negb (in_bounds e))
    (events (deliver demo_secrets full_of_A bench_with_neighbour)) =
    [BufferScan 257; BufferScan 257] /\
  published (events (deliver demo_secrets full_of_A bench_with_neighbour)) =
    [(events_topic demo_secrets, reply_text (full_of_A ++ [x2a]) false)].
Proof.
  vm_compute. split; [split; [reflexivity | discriminate] |]. repeat split.
Qed.

(** *** Sequencing *)

Section Sequencing.

Context {C : Type}.

Lemma events_bind {A B} (m : M C A) (k : A -> M C B) (w : world C) :
  events (bind m k w) =
  events (m w) ++
  match m w with
  | Ret a w1 _ => events (k a w1)
  | Stuck _ _ _ => []
  end.
Proof.
  unfold bind. destruct (m w) as [a w1 o1 | why w1 o1]; simpl.
  - destruct (k a w1); reflexivity.
  - now rewrite app_nil_r.
Qed.

Lemma returns_bind {A B} (m : M C A) (k : A -> M C B) (w : world C) :
  returns (bind m k w) =
  match m w with
  | Ret a w1 _ => returns (k a w1)
  | Stuck _ _ _ => false
  end.
Proof.
  unfold bind. destruct (m w) as [a w1 o1 | why w1 o1]; simpl.
  - destruct (k a w1); reflexivity.
  - reflexivity.
Qed.

Lemma emits_only_bind {A B} (p : event -> bool) (m : M C A) (k : A -> M C B) :
  emits_only p m -> (forall a, emits_only p (k a)) -> emits_only p (bind m k).
Proof.
  intros Hm Hk w. rewrite events_bind, forallb_app, (Hm w).
  destruct (m w) as [a w1 o1 | why w1 o1]; [apply Hk | reflexivity].
Qed.

Lemma emits_only_emit (p : event -> bool) (e : event) :
  p e = true -> emits_only p (emit (C := C) e).
Proof. intros H w. simpl. now rewrite H. Qed.

Lemma emits_only_get {A} (p : event -> bool) (f : world C -> A) :
  emits_only p (get f).
Proof. intros w. reflexivity. Qed.

Lemma emits_only_modify (p : event -> bool) (f : world C -> world C) :
  emits_only p (modify f).
Proof. intros w. reflexivity. Qed.

Lemma emits_only_ret {A} (p : event -> bool) (a : A) :
  emits_only p (ret (C := C) a).
Proof. intros w. reflexivity. Qed.

Lemma emits_only_never {A} (p : event -> bool) (why : stall) :
  emits_only p (never (C := C) (A := A) why).
Proof. intros w. reflexivity. Qed.

Lemma emits_only_weaken {A} (p q : event -> bool) (m : M C A) :
  (forall e, p e = true -> q e = true) -> emits_only p m -> emits_only q m.
Proof.
  intros Hpq Hm w. specialize (Hm w).
  rewrite forallb_forall in *. auto.
Qed.

End Sequencing.

Create HintDb sketch.

#[local] Hint Resolve emits_only_get emits_only_modify emits_only_ret
  emits_only_never : sketch.

Ltac step_emits :=
  unfold Serial_print, Serial_print_int, Serial_println, Serial_println_int,
    delay, millis, mqttClient_subscribe, lightingController_Initialize,
    ECCX08_begin;
  repeat first
    [ match goal with
      | |- emits_only _ (bind _ _) => apply emits_only_bind; [| intros ? ]
      | |- emits_only _ (emit _) => apply emits_only_emit; reflexivity
      end
    | solve [ auto with sketch ] ].

(** *** The subscription discipline *)

Lemma subscription_scan_app (topic : list byte) (due : bool)
  (a b : list event) :
  subscription_scan topic due (a ++ b) =
  match subscription_scan topic due a with
  | Some due' => subscription_scan topic due' b
  | None => None
  end.
Proof.
  revert due; induction a as [| e a IH]; intros due; [reflexivity |].
  destruct e; simpl; try apply IH.
  - destruct ok; [destruct due; [reflexivity | apply IH] | apply IH].
  - destruct (due && bytes_eqb topic0 topic); [apply IH | reflexivity].
  - destruct due; [reflexivity | apply IH].
Qed.

Lemma subscription_scan_neutral (topic : list byte) (due : bool)
  (evs : list event) :
  forallb session_neutral evs = true ->
  subscription_scan topic due evs = Some due.
Proof.
  induction evs as [| e evs IH]; [reflexivity |].
  simpl. intros H. apply andb_true_iff in H as [He Hrest].
  destruct e; try discriminate; simpl; try (now apply IH).
  destruct ok; [discriminate | now apply IH].
Qed.

(** Along a run that keeps the discipline there are as many subscriptions as
    sessions made. *)
Lemma subscription_scan_counts (topic : list byte) (evs : list event) :
  forall due due',
  subscription_scan topic due evs = Some due' ->
  (count is_session_up evs + (if due then 1 else 0) =
   count is_subscribe evs + (if due' then 1 else 0))%nat.
Proof.
  unfold count.
  induction evs as [| e evs IH]; intros due due'; simpl.
  - intros [= ->]. reflexivity.
  - destruct e; simpl; try (now apply IH).
    + destruct ok; [| now apply IH].
      destruct due; [discriminate |].
      intros H. apply IH in H. destruct due'; simpl in *; lia.
    + destruct due; simpl; [| discriminate].
      destruct (bytes_eqb topic0 topic); [| discriminate].
      intros H. apply IH in H. destruct due'; simpl in *; lia.
    + destruct due; [discriminate |]. now apply IH.
Qed.

Section Discipline.

Context {C : Type}.
Variable topic : list byte.

Lemma scans_bind {A B} (due mid due' : bool) (m : M C A) (k : A -> M C B) :
  scans topic due m mid -> (forall a, scans topic mid (k a) due') ->
  scans topic due (bind m k) due'.
Proof.
  intros Hm Hk w.
  rewrite events_bind, returns_bind, subscription_scan_app, (Hm w).
  destruct (m w) as [a w1 o1 | why w1 o1]; [apply Hk | reflexivity].
Qed.

Lemma scans_emit (due : bool) (e : event) :
  session_neutral e = true -> scans topic due (emit (C := C) e) due.
Proof.
  intros He w. cbn [emit events returns].
  apply subscription_scan_neutral. simpl. now rewrite He.
Qed.

Lemma scans_get {A} (due : bool) (f : world C -> A) :
  scans topic due (get f) due.
Proof. intros w. reflexivity. Qed.

Lemma scans_modify (due : bool) (f : world C -> world C) :
  scans topic due (modify f) due.
Proof. intros w. reflexivity. Qed.

Lemma scans_ret {A} (due : bool) (a : A) : scans topic due (ret (C := C) a) due.
Proof. intros w. reflexivity. Qed.

Lemma scans_never {A} (why : stall) (due' : bool) :
  scans topic false (never (C := C) (A := A) why) due'.
Proof. intros w. reflexivity. Qed.

Lemma scans_neutral {A} (m : M C A) :
  emits_only session_neutral m -> scans topic false m false.
Proof.
  intros Hm w. rewrite (subscription_scan_neutral _ _ _ (Hm w)).
  now destruct (returns (m w)).
Qed.

End Discipline.

#[local] Hint Resolve scans_get scans_modify scans_ret scans_never : sketch.

Ltac step_scans :=
  unfold Serial_print, Serial_print_int, Serial_println, Serial_println_int,
    delay, millis;
  repeat first
    [ match goal with
      | |- scans _ _ (bind _ _) _ => eapply scans_bind; [| intros ? ]
      | |- scans _ _ (emit _) _ => apply scans_emit; reflexivity
      end
    | solve [ auto with sketch ] ].

(** *** The Session Manager *)

Lemma dispatch_event_neutral (e : event) :
  is_dispatch_event e = true -> session_neutral e = true.
Proof. destruct e; simpl; intros H; try reflexivity; discriminate. Qed.

Lemma dispatch_event_no_session_action (e : event) :
  is_dispatch_event e = true -> is_session_action e = false.
Proof. destruct e; simpl; intros H; try reflexivity; discriminate. Qed.

Lemma count_none (p q : event -> bool) (evs : list event) :
  (forall e, q e = true -> p e = false) ->
  forallb q evs = true -> count p evs = 0%nat.
Proof.
  intros Hqp. unfold count. induction evs as [| e evs IH]; simpl;
    [reflexivity |].
  intros H. apply andb_true_iff in H as [He Hrest].
  now rewrite (Hqp e He), IH.
Qed.

Section Session.

Context {C : Type} {ZL : ZoneLightingController C}.
Variable secrets : arduino_secrets.

Lemma onMessageReceived_result (messageSize : Z) (w : world C) :
  exists w' evs,
    onMessageReceived secrets messageSize w = Ret tt w' evs /\
    forallb is_dispatch_event evs = true.
Proof.
  assert (Hcases : rx w = [] \/
                   0 < Z.of_nat (length (rx w)) <= max_mqtt_buffer_len \/
                   max_mqtt_buffer_len < Z.of_nat (length (rx w))).
  { unfold max_mqtt_buffer_len. destruct (rx w); [now left | right].
    simpl length. lia. }
  destruct Hcases as [H0 | [Hfit | Hbig]].
  - rewrite (onMessageReceived_empty secrets messageSize w H0).
    eexists _, _. split; reflexivity.
  - rewrite (onMessageReceived_accepted secrets messageSize w Hfit).
    eexists _, _. split; [reflexivity |].
    destruct (fst (HighlightZone (snd _) _)); reflexivity.
  - rewrite (onMessageReceived_oversized secrets messageSize w Hbig).
    eexists _, _. split; reflexivity.
Qed.

Lemma onMessageReceived_emits (messageSize : Z) :
  emits_only is_dispatch_event (onMessageReceived secrets messageSize).
Proof.
  intros w.
  destruct (onMessageReceived_result messageSize w) as (w' & evs & -> & H).
  exact H.
Qed.

Lemma connectWiFi_retry_neutral (results : list bool) :
  emits_only session_neutral (connectWiFi_retry (C := C) secrets results).
Proof.
  induction results as [| connected rest IH]; cbn [connectWiFi_retry].
  - auto with sketch.
  - destruct connected; step_emits.
Qed.

Lemma connectWiFi_neutral :
  emits_only session_neutral (connectWiFi (C := C) secrets).
Proof. unfold connectWiFi. step_emits. apply connectWiFi_retry_neutral. Qed.

Lemma connectMQTT_retry_scans (topic : list byte)
  (results : list connect_result) :
  scans topic false (connectMQTT_retry (C := C) secrets results) true.
Proof.
  induction results as [| r rest IH]; cbn [connectMQTT_retry].
  - auto with sketch.
  - destruct r; cbn [connect_ok].
    + intros w. reflexivity.
    + step_scans.
Qed.

Lemma mqttClient_subscribe_scans (topic : list byte) :
  scans topic true (mqttClient_subscribe (C := C) topic) false.
Proof.
  intros w. cbn. now rewrite bytes_eqb_refl.
Qed.

Lemma connectMQTT_scans :
  scans (devicebound_topic secrets) false (connectMQTT (C := C) secrets) false.
Proof.
  unfold connectMQTT. step_scans.
  - apply connectMQTT_retry_scans.
  - apply mqttClient_subscribe_scans.
Qed.

(** With a successful attempt among those to come, the retry loop of
    [connectMQTT] ends, the session is up, and the one subscription is the
    last thing [connectMQTT] does. *)
Lemma connectMQTT_retry_returns (results : list connect_result) (w : world C) :
  In SessionUp results ->
  exists w' evs,
    connectMQTT_retry secrets results w = Ret tt w' evs /\
    count is_subscribe evs = 0%nat /\ mqtt_connected w' = true.
Proof.
  revert w. induction results as [| r rest IH]; intros w Hin; [destruct Hin |].
  destruct r as [| error].
  - eexists _, _. split; [reflexivity |]. split; reflexivity.
  - destruct Hin as [Hr | Hin]; [discriminate |].
    cbn [connectMQTT_retry connect_ok].
    cbv beta iota zeta delta
      [bind emit modify delay Serial_print Serial_println_int].
    match goal with
    | |- context [connectMQTT_retry secrets rest ?w1] =>
        destruct (IH w1 Hin) as (w' & evs & -> & Hcount & Hup)
    end.
    eexists _, _. split; [reflexivity |]. split; [exact Hcount | exact Hup].
Qed.

Lemma connectMQTT_subscribes (w : world C) :
  In SessionUp (mqtt_connect_results w) ->
  exists w' before,
    connectMQTT secrets w =
      Ret tt w' (before ++ [MqttSubscribe (devicebound_topic secrets)]) /\
    count is_subscribe before = 0%nat /\ mqtt_connected w' = true.
Proof.
  intros Hin.
  cbv beta iota zeta delta
    [connectMQTT bind emit get Serial_print Serial_println
     mqttClient_subscribe].
  destruct (connectMQTT_retry_returns _ w Hin) as (w' & evs & -> & Hcount & Hup).
  exists w'.
  exists ([SerialPrint (txt "Attempting to MQTT broker: ");
           SerialPrint (broker secrets); SerialPrintln (txt " ")] ++
          evs ++
          [SerialPrintln []; SerialPrintln (txt "You're connected to the MQTT broker");
           SerialPrintln []]).
  split; [| split; [| exact Hup]].
  - cbn [app]. rewrite <- !app_assoc. reflexivity.
  - unfold count in *. cbn [app filter is_subscribe].
    rewrite filter_app, length_app, Hcount. reflexivity.
Qed.

Lemma mqttClient_poll_result (w : world C) :
  exists w' dispatch,
    mqttClient_poll secrets w = Ret tt w' (MqttPoll :: dispatch) /\
    forallb is_dispatch_event dispatch = true.
Proof.
  unfold mqttClient_poll, bind, emit, get, modify, ret.
  destruct (happenings w) as [| [| topic payload | |] rest];
    try (eexists _, _; split; reflexivity).
  destruct (onMessageReceived_result (Z.of_nat (length payload))
              (set_rx topic payload (set_happenings rest w)))
    as (w' & evs & -> & Hevs).
  eexists _, _. split; [reflexivity | exact Hevs].
Qed.

Lemma mqttClient_poll_scans (topic : list byte) :
  scans topic false (mqttClient_poll secrets) false.
Proof.
  intros w. destruct (mqttClient_poll_result w) as (w' & evs & -> & Hevs).
  cbn [events returns subscription_scan].
  apply subscription_scan_neutral.
  rewrite forallb_forall in *. auto using dispatch_event_neutral.
Qed.

Lemma loop_scans : scans (devicebound_topic secrets) false (loop secrets) false.
Proof.
  unfold loop. step_scans.
  - match goal with |- scans _ _ (if ?b then _ else _) _ => destruct b end;
      [apply scans_neutral, connectWiFi_neutral | apply scans_ret].
  - match goal with |- scans _ _ (if ?b then _ else _) _ => destruct b end;
      [apply connectMQTT_scans | apply scans_ret].
  - apply mqttClient_poll_scans.
  - match goal with |- scans _ _ (if ?b then _ else _) _ => destruct b end;
      step_scans.
Qed.

Lemma loops_scans (n : nat) :
  scans (devicebound_topic secrets) false (loops secrets n) false.
Proof.
  induction n as [| n IH]; cbn [loops]; [auto with sketch |].
  eapply scans_bind; [apply loop_scans | intros _; exact IH].
Qed.

Lemma setup_neutral : emits_only session_neutral (setup secrets).
Proof.
  unfold setup. cbv zeta. step_emits.
  all: match goal with
       | |- emits_only _ (if ?b then _ else _) => destruct b
       end; step_emits.
Qed.

Lemma sketch_scans (n : nat) :
  scans (devicebound_topic secrets) false (sketch secrets n) false.
Proof.
  unfold sketch. eapply scans_bind;
    [apply scans_neutral, setup_neutral | intros _; apply loops_scans].
Qed.

End Session.

Section Driver.

Context {C : Type} {ZL : ZoneLightingController C}.
Variable secrets : arduino_secrets.

Lemma loop_connected (w : world C) :
  wifi_connected w = true -> mqtt_connected w = true ->
  exists w' dispatch,
    loop secrets w = Ret tt w' (MqttPoll :: dispatch) /\
    forallb is_dispatch_event dispatch = true.
Proof.
  intros Hwifi Hmqtt.
  destruct (mqttClient_poll_result secrets w) as (w1 & dispatch & Hpoll & Hd).
  cbv beta iota zeta delta [loop bind get millis modify ret].
  rewrite Hwifi. cbn [negb]. cbv beta iota.
  rewrite Hmqtt. cbn [negb]. cbv beta iota.
  rewrite Hpoll.
  destruct (_ >? _); eexists _, dispatch;
    (split; [cbn [app]; rewrite ?app_nil_r; reflexivity | exact Hd]).
Qed.

(** C6.  In every world in which [WiFi.status()] reports the link and
    [mqttClient.connected()] the session, one round of [loop] returns and
    goes straight to the poll: its first event is the poll, what follows is
    the dispatch of the message the poll finds (if any), and nowhere in it is
    there a connection attempt, a delay or a subscription. *)
Theorem loop_when_connected_only_polls (w : world C) :
  wifi_connected w = true -> mqtt_connected w = true ->
  let r := loop secrets w in
  returns r = true /\
  (exists dispatch,
     events r = MqttPoll :: dispatch /\
     forallb is_dispatch_event dispatch = true) /\
  count is_connection_attempt (events r) = 0%nat /\
  count is_delay (events r) = 0%nat /\
  count is_subscribe (events r) = 0%nat.
Proof.
  intros Hwifi Hmqtt r. subst r.
  destruct (loop_connected w Hwifi Hmqtt) as (w' & dispatch & -> & Hd).
  cbn [returns events].
  split; [reflexivity |]. split; [now exists dispatch |].
  unfold count. cbn [filter is_connection_attempt is_delay is_subscribe].
  repeat split; apply (count_none _ is_dispatch_event); try exact Hd;
    intros e He; pose proof (dispatch_event_no_session_action e He) as Hs;
    unfold is_session_action in Hs;
    apply orb_false_iff in Hs as [Hs Hsub];
    apply orb_false_iff in Hs as [Hconn Hdelay]; assumption.
Qed.

(** C7.  Along every run of the driver loop, from any world and for any
    number of rounds, and along every run of the sketch from [setup] on:
    each session that comes up is followed by one subscription to
    [devices/{deviceId}/messages/devicebound/#] before the next poll and
    before another session comes up, and no subscription happens without a
    session just made ([subscription_scan] accepts the run and ends with
    nothing due).  So the run has as many subscriptions as sessions made. *)
Theorem subscribe_once_per_session (n : nat) (w : world C) :
  let topic := devicebound_topic secrets in
  let run := events (loops secrets n w) in
  let from_boot := events (sketch secrets n w) in
  subscription_scan topic false run = Some false /\
  count is_subscribe run = count is_session_up run /\
  subscription_scan topic false from_boot = Some false /\
  count is_subscribe from_boot = count is_session_up from_boot.
Proof.
  intros topic run from_boot.
  assert (Hrun : subscription_scan topic false run = Some false).
  { subst run topic. rewrite (loops_scans secrets n w).
    now destruct (returns _). }
  assert (Hboot : subscription_scan topic false from_boot = Some false).
  { subst from_boot topic. rewrite (sketch_scans secrets n w).
    now destruct (returns _). }
  pose proof (subscription_scan_counts _ _ _ _ Hrun) as H1.
  pose proof (subscription_scan_counts _ _ _ _ Hboot) as H2.
  repeat split; try assumption; lia.
Qed.

Lemma setup_without_ECCX08 (w : world C) :
  eccx08_present w = false ->
  setup secrets w =
  if serial_ready w then
    Stuck Halted
      (set_lightingController (Initialize (lightingController w))
         (set_clock (clock w + 5000) w))
      [Delay 5000; SerialBegin 9600; LightingInitialize; ECCX08Begin false;
       SerialPrintln (txt "No ECCX08 present!")]
  else
    Stuck AwaitSerial (set_clock (clock w + 5000) w)
      [Delay 5000; SerialBegin 9600].
Proof.
  intros Hecc.
  cbv beta iota zeta delta
    [setup bind delay emit get modify ret never lightingController_Initialize
     ECCX08_begin Serial_println Serial_print].
  cbn [serial_ready set_clock].
  destruct (serial_ready w); cbv beta iota; [| reflexivity].
  cbn [eccx08_present set_clock set_lightingController].
  rewrite Hecc. reflexivity.
Qed.

(** C8.  With no ECCX08 on the board the sketch never gets past [setup]:
    however many rounds of [loop] the run is given, it is [setup]'s own run,
    it does not return, it asks for the ECCX08 at most once, and none of its
    events belongs to anything behind the check (certificate, client set-up,
    Session Manager, poll, dispatch).  Where the serial port comes up, the
    run ends in the [while (1);] after the one line [No ECCX08 present!]. *)
Theorem no_ECCX08_halts_in_setup (n : nat) (w : world C) :
  eccx08_present w = false ->
  let r := sketch secrets n w in
  r = setup secrets w /\
  returns r = false /\
  events r =
    (if serial_ready w then
       [Delay 5000; SerialBegin 9600; LightingInitialize; ECCX08Begin false;
        SerialPrintln (txt "No ECCX08 present!")]
     else [Delay 5000; SerialBegin 9600]) /\
  (serial_ready w = true -> exists w', r = Stuck Halted w' (events r)) /\
  forallb (fun e => negb (is_past_setup e)) (events r) = true /\
  count is_eccx08_begin (events r) = (if serial_ready w then 1 else 0)%nat.
Proof.
  intros Hecc r. subst r. unfold sketch, bind.
  rewrite (setup_without_ECCX08 w Hecc).
  destruct (serial_ready w); cbn [returns events].
  - repeat split. intros _. eexists. reflexivity.
  - repeat split. discriminate.
Qed.

End Driver.

(** *** The driver on concrete worlds *)

Lemma loop_when_connected_only_polls_witness :
  wifi_connected connected_with_command = true /\
  mqtt_connected connected_with_command = true /\
  returns (loop demo_secrets connected_with_command) = true /\
  count is_connection_attempt
    (events (loop demo_secrets connected_with_command)) = 0%nat /\
  count is_delay (events (loop demo_secrets connected_with_command)) = 0%nat /\
  count is_subscribe (events (loop demo_secrets connected_with_command)) = 0%nat.
Proof.
  assert (Hwifi : wifi_connected connected_with_command = true) by reflexivity.
  assert (Hmqtt : mqtt_connected connected_with_command = true) by reflexivity.
  destruct (loop_when_connected_only_polls demo_secrets connected_with_command
              Hwifi Hmqtt)
    as (Hret & _ & Hc & Hd & Hs).
  repeat split; assumption.
Defined.

(** A run with two sessions: made at the second attempt, lost, made again.
    Each is subscribed once, before the poll that follows it. *)
Example two_sessions_two_subscriptions :
  filter (fun e => is_connection_attempt e || is_subscribe e || is_poll e)
    (events (loops demo_secrets 3 two_sessions)) =
  [WiFiBegin (txt "home") (txt "wifi-pass") false;
   WiFiBegin (txt "home") (txt "wifi-pass") true;
   MqttConnect (txt "hub.azure-devices.net") 8883 false;
   MqttConnect (txt "hub.azure-devices.net") 8883 true;
   MqttSubscribe (devicebound_topic demo_secrets);
   MqttPoll;
   MqttPoll;
   MqttConnect (txt "hub.azure-devices.net") 8883 true;
   MqttSubscribe (devicebound_topic demo_secrets);
   MqttPoll] /\
  highlighted (lightingController (final (loops demo_secrets 3 two_sessions))) =
  [Zone2; Zone2].
Proof. vm_compute. split; reflexivity. Qed.

Lemma no_ECCX08_halts_in_setup_witness :
  eccx08_present board_without_ECCX08 = false /\
  sketch demo_secrets 7 board_without_ECCX08 =
    setup demo_secrets board_without_ECCX08 /\
  returns (sketch demo_secrets 7 board_without_ECCX08) = false /\
  count is_eccx08_begin
    (events (sketch demo_secrets 7 board_without_ECCX08)) = 1%nat.
Proof.
  assert (Hecc : eccx08_present board_without_ECCX08 = false) by reflexivity.
  destruct (no_ECCX08_halts_in_setup demo_secrets 7 board_without_ECCX08 Hecc)
    as (Hsame & Hret & _ & _ & _ & Hcount).
  repeat split; assumption.
Defined.

(** *** The retry loops *)

Section Retry.

Context {C : Type} {ZL : ZoneLightingController C}.
Variable secrets : arduino_secrets.

Lemma connectWiFi_retry_after_failures (fails rest : list bool) :
  forallb negb fails = true ->
  forall w : world C,
  exists w' evs,
    connectWiFi_retry secrets (fails ++ true :: rest) w = Ret tt w' evs /\
    w' = set_clock (clock w + 5000 * Z.of_nat (length fails))
           (set_wifi true rest w) /\
    filter is_connection_attempt evs =
      map (WiFiBegin (ssid secrets) (pass secrets)) (fails ++ [true]) /\
    filter is_delay evs = repeat (Delay 5000) (length fails) /\
    count is_mqtt_call evs = 0%nat.
Proof.
  induction fails as [| f fails IH]; intros Hf w.
  - eexists _, _. split; [reflexivity |].
    cbn [length Z.of_nat]. rewrite Z.mul_0_r, Z.add_0_r.
    destruct w; repeat split.
  - cbn [forallb] in Hf. apply andb_true_iff in Hf as [Hneg Hf].
    destruct f; [discriminate |].
    cbn [app connectWiFi_retry].
    cbv beta iota zeta delta [bind emit modify delay Serial_print].
    match goal with
    | |- context [connectWiFi_retry secrets _ ?w1] =>
        destruct (IH Hf w1) as (w' & evs & -> & Hw & Hatt & Hdel & Hmq)
    end.
    eexists _, _. split; [reflexivity |].
    split; [| split; [| split]].
    + rewrite Hw. cbn [length]. rewrite Nat2Z.inj_succ.
      unfold set_clock, set_wifi.
      cbn [memory lightingController lastMillis rx_topic rx serial_ready
           eccx08_present wifi_connected mqtt_connected wifi_begin_results
           mqtt_connect_results happenings clock].
      f_equal. lia.
    + cbn [app filter is_connection_attempt map]. now rewrite Hatt.
    + cbn [app filter is_delay length repeat]. now rewrite Hdel.
    + unfold count in *. cbn [app filter is_mqtt_call]. exact Hmq.
Qed.

Lemma connectWiFi_retry_all_failures (results : list bool) :
  forallb negb results = true ->
  forall w : world C,
  exists w' evs,
    connectWiFi_retry secrets results w = Stuck RetryWiFi w' evs /\
    clock w' = clock w + 5000 * Z.of_nat (length results) /\
    filter is_connection_attempt evs =
      map (WiFiBegin (ssid secrets) (pass secrets)) results /\
    count is_delay evs = length results /\
    forallb (fun e => negb (is_mqtt_call e)) evs = true.
Proof.
  induction results as [| f results IH]; intros Hf w.
  - eexists _, _. split; [reflexivity |]. cbn. rewrite Z.add_0_r.
    repeat split.
  - cbn [forallb] in Hf. apply andb_true_iff in Hf as [Hneg Hf].
    destruct f; [discriminate |].
    cbn [connectWiFi_retry].
    cbv beta iota zeta delta [bind emit modify delay Serial_print].
    match goal with
    | |- context [connectWiFi_retry secrets _ ?w1] =>
        destruct (IH Hf w1) as (w' & evs & -> & Hw & Hatt & Hdel & Hmq)
    end.
    eexists _, _. split; [reflexivity |].
    split; [| split; [| split]].
    + rewrite Hw. cbn [length clock set_clock set_wifi].
      rewrite Nat2Z.inj_succ. lia.
    + cbn [app filter is_connection_attempt map]. now rewrite Hatt.
    + unfold count in *. cbn [app filter is_delay length]. now rewrite Hdel.
    + cbn [app forallb is_mqtt_call negb andb]. exact Hmq.
Qed.

(** X1.  When the link comes up at an attempt that follows [k] failed ones,
    [connectWiFi] returns with the link up: it has called [WiFi.begin]
    [k + 1] times with the configured SSID and password, waited 5000 ms
    after each failure and not after the success, and made no call on the
    MQTT client. *)
Theorem connectWiFi_after_failures (w : world C) (fails rest : list bool) :
  wifi_begin_results w = fails ++ true :: rest ->
  forallb negb fails = true ->
  exists w' evs,
    connectWiFi secrets w = Ret tt w' evs /\
    wifi_connected w' = true /\
    wifi_begin_results w' = rest /\
    clock w' = clock w + 5000 * Z.of_nat (length fails) /\
    mqtt_connected w' = mqtt_connected w /\
    filter is_connection_attempt evs =
      map (WiFiBegin (ssid secrets) (pass secrets)) (fails ++ [true]) /\
    filter is_delay evs = repeat (Delay 5000) (length fails) /\
    count is_mqtt_call evs = 0%nat.
Proof.
  intros Hres Hf.
  cbv beta iota zeta delta
    [connectWiFi bind emit get Serial_print Serial_println].
  rewrite Hres.
  destruct (connectWiFi_retry_after_failures fails rest Hf w)
    as (w' & evs & -> & -> & Hatt & Hdel & Hmq).
  eexists _, _. split; [reflexivity |].
  cbn [wifi_connected wifi_begin_results clock mqtt_connected set_clock
       set_wifi].
  repeat split.
  - cbn [app filter is_connection_attempt]. rewrite filter_app, Hatt.
    cbn. now rewrite app_nil_r.
  - cbn [app filter is_delay]. rewrite filter_app, Hdel.
    cbn. now rewrite app_nil_r.
  - unfold count in *. cbn [app filter is_mqtt_call].
    rewrite filter_app, length_app, Hmq. reflexivity.
Qed.

Lemma connectWiFi_all_failures (w : world C) :
  forallb negb (wifi_begin_results w) = true ->
  exists w' evs,
    connectWiFi secrets w = Stuck RetryWiFi w' evs /\
    clock w' = clock w + 5000 * Z.of_nat (length (wifi_begin_results w)) /\
    filter is_connection_attempt evs =
      map (WiFiBegin (ssid secrets) (pass secrets)) (wifi_begin_results w) /\
    count is_delay evs = length (wifi_begin_results w) /\
    forallb (fun e => negb (is_mqtt_call e)) evs = true.
Proof.
  intros Hf.
  cbv beta iota zeta delta [connectWiFi bind emit get Serial_print].
  destruct (connectWiFi_retry_all_failures _ Hf w)
    as (w' & evs & -> & Hclock & Hatt & Hdel & Hmq).
  eexists _, _. split; [reflexivity |].
  split; [exact Hclock |].
  split; [cbn [app filter is_connection_attempt]; exact Hatt |].
  split; [unfold count in *; cbn [app filter is_delay]; exact Hdel |].
  cbn [app forallb is_mqtt_call negb andb]. exact Hmq.
Qed.

Lemma connectMQTT_retry_after_failures (codes : list Z)
  (rest : list connect_result) :
  forall w : world C,
  exists w' evs,
    connectMQTT_retry secrets (map ConnectFailed codes ++ SessionUp :: rest) w =
      Ret tt w' evs /\
    w' = set_clock (clock w + 5000 * Z.of_nat (length codes))
           (set_mqtt true rest w) /\
    filter is_connection_attempt evs =
      repeat (MqttConnect (broker secrets) 8883 false) (length codes) ++
      [MqttConnect (broker secrets) 8883 true] /\
    printed_error_codes evs = codes /\
    filter is_delay evs = repeat (Delay 5000) (length codes) /\
    count is_subscribe evs = 0%nat.
Proof.
  induction codes as [| code codes IH]; intros w.
  - eexists _, _. split; [reflexivity |].
    cbn [length Z.of_nat]. rewrite Z.mul_0_r, Z.add_0_r.
    destruct w; repeat split.
  - cbn [map app connectMQTT_retry connect_ok].
    cbv beta iota zeta delta
      [bind emit modify delay Serial_print Serial_println_int].
    match goal with
    | |- context [connectMQTT_retry secrets _ ?w1] =>
        destruct (IH w1) as (w' & evs & -> & Hw & Hatt & Hcodes & Hdel & Hsub)
    end.
    eexists _, _. split; [reflexivity |].
    split; [| split; [| split; [| split]]].
    + rewrite Hw. cbn [length]. rewrite Nat2Z.inj_succ.
      unfold set_clock, set_mqtt.
      cbn [memory lightingController lastMillis rx_topic rx serial_ready
           eccx08_present wifi_connected mqtt_connected wifi_begin_results
           mqtt_connect_results happenings clock].
      f_equal. lia.
    + cbn [app filter is_connection_attempt length repeat]. now rewrite Hatt.
    + cbn [app printed_error_codes]. now rewrite Hcodes.
    + cbn [app filter is_delay length repeat]. now rewrite Hdel.
    + unfold count in *. cbn [app filter is_subscribe]. exact Hsub.
Qed.

Lemma connectMQTT_retry_all_failures (codes : list Z) :
  forall w : world C,
  exists w' evs,
    connectMQTT_retry secrets (map ConnectFailed codes) w =
      Stuck RetryMQTT w' evs /\
    clock w' = clock w + 5000 * Z.of_nat (length codes) /\
    filter is_connection_attempt evs =
      repeat (MqttConnect (broker secrets) 8883 false) (length codes) /\
    printed_error_codes evs = codes /\
    forallb (fun e => negb (is_subscribe e || is_poll e || is_wifi_begin e))
      evs = true.
Proof.
  induction codes as [| code codes IH]; intros w.
  - eexists _, _. split; [reflexivity |]. cbn. rewrite Z.add_0_r.
    repeat split.
  - cbn [map connectMQTT_retry connect_ok].
    cbv beta iota zeta delta
      [bind emit modify delay Serial_print Serial_println_int].
    match goal with
    | |- context [connectMQTT_retry secrets _ ?w1] =>
        destruct (IH w1) as (w' & evs & -> & Hw & Hatt & Hcodes & Hno)
    end.
    eexists _, _. split; [reflexivity |].
    split; [| split; [| split]].
    + rewrite Hw. cbn [length clock set_clock set_mqtt].
      rewrite Nat2Z.inj_succ. lia.
    + cbn [app filter is_connection_attempt length repeat]. now rewrite Hatt.
    + cbn [app printed_error_codes]. now rewrite Hcodes.
    + cbn [app forallb is_subscribe is_poll is_wifi_begin negb orb andb].
      exact Hno.
Qed.

(** X3.  When the broker accepts the session at an attempt that follows [k]
    refused ones, [connectMQTT] returns with the session up: every attempt
    went to the configured broker on port 8883, the error code of each
    refused attempt was printed, in order, 5000 ms were waited after each
    refusal, and the one subscription, to
    [devices/{deviceId}/messages/devicebound/#], is the last thing done. *)
Theorem connectMQTT_after_failures (w : world C) (codes : list Z)
  (rest : list connect_result) :
  mqtt_connect_results w = map ConnectFailed codes ++ SessionUp :: rest ->
  exists w' before,
    connectMQTT secrets w =
      Ret tt w' (before ++ [MqttSubscribe (devicebound_topic secrets)]) /\
    mqtt_connected w' = true /\
    mqtt_connect_results w' = rest /\
    clock w' = clock w + 5000 * Z.of_nat (length codes) /\
    wifi_connected w' = wifi_connected w /\
    filter is_connection_attempt before =
      repeat (MqttConnect (broker secrets) 8883 false) (length codes) ++
      [MqttConnect (broker secrets) 8883 true] /\
    printed_error_codes before = codes /\
    filter is_delay before = repeat (Delay 5000) (length codes) /\
    count is_subscribe before = 0%nat.
Proof.
  intros Hres.
  cbv beta iota zeta delta
    [connectMQTT bind emit get Serial_print Serial_println
     mqttClient_subscribe].
  rewrite Hres.
  destruct (connectMQTT_retry_after_failures codes rest w)
    as (w' & evs & -> & -> & Hatt & Hcodes & Hdel & Hsub).
  exists (set_clock (clock w + 5000 * Z.of_nat (length codes))
            (set_mqtt true rest w)).
  exists ([SerialPrint (txt "Attempting to MQTT broker: ");
           SerialPrint (broker secrets); SerialPrintln (txt " ")] ++
          evs ++
          [SerialPrintln [];
           SerialPrintln (txt "You're connected to the MQTT broker");
           SerialPrintln []]).
  split; [cbn [app]; rewrite <- !app_assoc; reflexivity |].
  cbn [wifi_connected mqtt_connect_results clock mqtt_connected set_clock
       set_mqtt].
  repeat split.
  - cbn [app filter is_connection_attempt]. rewrite filter_app, Hatt.
    cbn [filter is_connection_attempt]. now rewrite app_nil_r.
  - cbn [app printed_error_codes].
    clear - Hcodes. revert Hcodes. generalize codes.
    induction evs as [| e evs IH]; intros cs Hcs; [exact Hcs |].
    destruct e; cbn [app printed_error_codes] in *; try (now apply IH).
    destruct cs as [| c cs]; [discriminate |].
    injection Hcs as -> Hcs. f_equal. now apply IH.
  - cbn [app filter is_delay]. rewrite filter_app, Hdel.
    cbn [filter is_delay]. now rewrite app_nil_r.
  - unfold count in *. cbn [app filter is_subscribe].
    rewrite filter_app, length_app, Hsub. reflexivity.
Qed.

Lemma connectMQTT_all_failures (w : world C) (codes : list Z) :
  mqtt_connect_results w = map ConnectFailed codes ->
  exists w' evs,
    connectMQTT secrets w = Stuck RetryMQTT w' evs /\
    clock w' = clock w + 5000 * Z.of_nat (length codes) /\
    filter is_connection_attempt evs =
      repeat (MqttConnect (broker secrets) 8883 false) (length codes) /\
    printed_error_codes evs = codes /\
    forallb (fun e => negb (is_subscribe e || is_poll e || is_wifi_begin e))
      evs = true.
Proof.
  intros Hres.
  cbv beta iota zeta delta
    [connectMQTT bind emit get Serial_print Serial_println].
  rewrite Hres.
  destruct (connectMQTT_retry_all_failures codes w)
    as (w' & evs & -> & Hclock & Hatt & Hcodes & Hno).
  eexists _, _. split; [reflexivity |].
  split; [exact Hclock |].
  split; [cbn [app filter is_connection_attempt]; exact Hatt |].
  split; [cbn [app printed_error_codes]; exact Hcodes |].
  cbn [app forallb is_subscribe is_poll is_wifi_begin negb orb andb].
  exact Hno.
Qed.

(** X2.  There is no ceiling on the attempts: while every attempt fails,
    [connectWiFi] does not return; after [n] failures it has made [n]
    attempts and waited [n] times 5000 ms, and it has made no call on the
    MQTT client. *)
Theorem connectWiFi_keeps_retrying (w : world C) :
  forallb negb (wifi_begin_results w) = true ->
  exists w' evs,
    connectWiFi secrets w = Stuck RetryWiFi w' evs /\
    clock w' = clock w + 5000 * Z.of_nat (length (wifi_begin_results w)) /\
    filter is_connection_attempt evs =
      map (WiFiBegin (ssid secrets) (pass secrets)) (wifi_begin_results w) /\
    count is_delay evs = length (wifi_begin_results w) /\
    forallb (fun e => negb (is_mqtt_call e)) evs = true.
Proof. exact (connectWiFi_all_failures w). Qed.

(** X4.  While the broker refuses every attempt, [connectMQTT] does not
    return: after [n] refusals it has made [n] attempts on port 8883, printed
    the [n] error codes and waited [n] times 5000 ms, and it has subscribed
    to nothing, polled nothing and not touched the WiFi link. *)
Theorem connectMQTT_keeps_retrying (w : world C) (codes : list Z) :
  mqtt_connect_results w = map ConnectFailed codes ->
  exists w' evs,
    connectMQTT secrets w = Stuck RetryMQTT w' evs /\
    clock w' = clock w + 5000 * Z.of_nat (length codes) /\
    filter is_connection_attempt evs =
      repeat (MqttConnect (broker secrets) 8883 false) (length codes) /\
    printed_error_codes evs = codes /\
    forallb (fun e => negb (is_subscribe e || is_poll e || is_wifi_begin e))
      evs = true.
Proof. exact (connectMQTT_all_failures w codes). Qed.

End Retry.

(** *** What the handler leaves alone *)

Lemma nth_error_repeat_zero (n i : nat) :
  (i < n)%nat -> nth_error (repeat x00 n) i = Some x00.
Proof.
  revert i; induction n as [| n IH]; intros [| i] H; simpl;
    try lia; [reflexivity | apply IH; lia].
Qed.

Lemma terminated_from_power_up {C} (c : C) (behind : list byte) (k : nat) :
  terminated_from k (memory (power_up c behind)).
Proof.
  intros i Hi. cbn [memory power_up].
  rewrite nth_error_app1 by (rewrite repeat_length; lia).
  apply nth_error_repeat_zero. lia.
Qed.

Lemma terminated_from_after_copy (k : nat) (payload mem : list byte) :
  terminated_from k mem ->
  terminated_from (Nat.max k (length payload))
    (payload ++ skipn (length payload) mem).
Proof.
  intros Hk i Hi.
  rewrite nth_error_app2 by lia.
  rewrite nth_error_skipn.
  replace (length payload + (i - length payload))%nat with i by lia.
  apply Hk. lia.
Qed.

Section Frame.

Context {C : Type} {ZL : ZoneLightingController C}.
Variable secrets : arduino_secrets.

Lemma payload_cases (w : world C) :
  rx w = [] \/
  0 < Z.of_nat (length (rx w)) <= max_mqtt_buffer_len \/
  max_mqtt_buffer_len < Z.of_nat (length (rx w)).
Proof.
  unfold max_mqtt_buffer_len. destruct (rx w); [now left | right].
  simpl length. lia.
Qed.

Lemma onMessageReceived_leaves (messageSize : Z) (w : world C) :
  let w' := final (onMessageReceived secrets messageSize w) in
  skipn (Z.to_nat max_mqtt_buffer_len) (memory w') =
    skipn (Z.to_nat max_mqtt_buffer_len) (memory w) /\
  wifi_connected w' = wifi_connected w /\
  mqtt_connected w' = mqtt_connected w /\
  clock w' = clock w /\
  lastMillis w' = lastMillis w /\
  happenings w' = happenings w /\
  wifi_begin_results w' = wifi_begin_results w /\
  mqtt_connect_results w' = mqtt_connect_results w.
Proof.
  destruct (payload_cases w) as [H0 | [Hfit | Hbig]]; cbv zeta.
  - rewrite (onMessageReceived_empty secrets messageSize w H0).
    repeat split.
  - rewrite (onMessageReceived_accepted secrets messageSize w Hfit).
    cbn [final memory wifi_connected mqtt_connected clock lastMillis
         happenings wifi_begin_results mqtt_connect_results
         set_lightingController set_rx set_memory].
    repeat split.
    rewrite skipn_app, skipn_skipn.
    rewrite skipn_all2 by (unfold max_mqtt_buffer_len in *; lia).
    cbn [app]. f_equal. unfold max_mqtt_buffer_len in *. lia.
  - rewrite (onMessageReceived_oversized secrets messageSize w Hbig).
    repeat split.
Qed.

(** X5.  Whatever arrives, whatever its length and whatever memory held
    before, [onMessageReceived] writes nothing behind the 256 bytes of
    [mqtt_buffer]; and it leaves the connection state, the clock,
    [lastMillis] and what is still to come on the link as they were. *)
Theorem onMessageReceived_writes_only_the_buffer (messageSize : Z)
  (w : world C) :
  let w' := final (onMessageReceived secrets messageSize w) in
  skipn (Z.to_nat max_mqtt_buffer_len) (memory w') =
    skipn (Z.to_nat max_mqtt_buffer_len) (memory w) /\
  wifi_connected w' = wifi_connected w /\
  mqtt_connected w' = mqtt_connected w /\
  clock w' = clock w /\
  lastMillis w' = lastMillis w.
Proof.
  cbv zeta.
  destruct (onMessageReceived_leaves messageSize w)
    as (Hmem & Hwifi & Hmqtt & Hclock & Hlast & _).
  repeat split; assumption.
Qed.

(** A text without zero byte, shorter than the buffer and no shorter than
    where the zero bytes of the buffer begin: what the handler makes of it. *)
Lemma verbatim_when_terminated (messageSize : Z) (w : world C) (k : nat) :
  terminated_from k (memory w) ->
  (k <= length (rx w))%nat ->
  0 < Z.of_nat (length (rx w)) < max_mqtt_buffer_len ->
  no_nul (rx w) = true ->
  let r := onMessageReceived secrets messageSize w in
  (exists v1 v2,
     published (events r) = [(events_topic secrets, reply_text (rx w) v1)] /\
     highlight_calls (events r) = [(rx w, v1); (rx w, v2)]) /\
  forallb in_bounds (events r) = true /\
  terminated_from (length (rx w)) (memory (final r)).
Proof.
  intros Hk Hle Hlen Hnn r. subst r.
  assert (Hterm : nth_error (memory w) (length (rx w)) = Some x00).
  { apply Hk. unfold max_mqtt_buffer_len in *. lia. }
  split; [| split].
  - rewrite (onMessageReceived_accepted secrets messageSize w) by lia.
    cbn [events]. rewrite published_dispatch, highlight_calls_dispatch.
    cbv zeta. rewrite c_str_buffer_after_copy
      by (unfold max_mqtt_buffer_len in *; (lia || now right)).
    destruct (skipn_nth_error _ _ _ Hterm) as [rest ->].
    rewrite c_str_app_terminated, (c_str_no_nul _ Hnn).
    eexists _, _. split; reflexivity.
  - apply terminated_payload_read_in_bounds; assumption.
  - rewrite (onMessageReceived_accepted secrets messageSize w) by lia.
    cbn [final memory set_lightingController set_rx set_memory].
    pose proof (terminated_from_after_copy k (rx w) (memory w) Hk) as H.
    now rewrite Nat.max_r in H by exact Hle.
Qed.

(** X6.  While the zero bytes of [mqtt_buffer] begin no later than where
    the payload ends - at power-up, and as long as no message so far was
    longer than this one - a text without zero byte that is shorter than the
    buffer is routed and echoed verbatim: both [HighlightZone] calls get the
    payload, the one reply carries it between the brackets, every scan stays
    inside the buffer, and the zero bytes then begin where this payload
    ends. *)
Theorem no_shorter_than_before_is_verbatim (messageSize : Z) (w : world C)
  (k : nat) :
  terminated_from k (memory w) ->
  (k <= length (rx w))%nat ->
  0 < Z.of_nat (length (rx w)) < max_mqtt_buffer_len ->
  no_nul (rx w) = true ->
  let r := onMessageReceived secrets messageSize w in
  (exists v1 v2,
     published (events r) = [(events_topic secrets, reply_text (rx w) v1)] /\
     highlight_calls (events r) = [(rx w, v1); (rx w, v2)]) /\
  forallb in_bounds (events r) = true /\
  terminated_from (length (rx w)) (memory (final r)).
Proof. exact (verbatim_when_terminated messageSize w k). Qed.

(** X7.  A sequence of texts without zero byte, each shorter than the
    buffer and none shorter than the one before, delivered one after the
    other from a buffer whose zero bytes begin no later than the first one
    ends: every one of them is answered with one reply that echoes it
    verbatim. *)
Theorem growing_payloads_echoed_verbatim (payloads : list (list byte))
  (w : world C) (k : nat) :
  terminated_from k (memory w) ->
  growing k payloads = true ->
  Forall2
    (fun payload reply =>
       exists verdict,
         reply = [(events_topic secrets, reply_text payload verdict)])
    payloads (deliver_each secrets payloads w).
Proof.
  revert w k. induction payloads as [| p rest IH]; intros w k Hk Hg.
  - constructor.
  - cbn [growing] in Hg.
    apply andb_true_iff in Hg as [Hg Hrest].
    apply andb_true_iff in Hg as [Hg Hnn].
    apply andb_true_iff in Hg as [Hg Hlt].
    apply andb_true_iff in Hg as [Hle Hpos].
    apply Nat.leb_le in Hle. apply Nat.ltb_lt in Hpos. apply Z.ltb_lt in Hlt.
    cbn [deliver_each]. unfold deliver.
    assert (Hk' : terminated_from k (memory (arriving p w))) by exact Hk.
    destruct (verbatim_when_terminated (Z.of_nat (length p)) (arriving p w) k
                Hk' Hle ltac:(cbn [rx arriving set_rx]; lia) Hnn)
      as ((v1 & v2 & Hpub & _) & _ & Hnext).
    constructor.
    + exists v1. exact Hpub.
    + apply (IH _ (length p)); [exact Hnext | exact Hrest].
Qed.

End Frame.

(** *** Whole rounds *)

Lemma count_app (p : event -> bool) (a b : list event) :
  count p (a ++ b) = (count p a + count p b)%nat.
Proof. unfold count. now rewrite filter_app, length_app. Qed.

Section Additive.

Context {C : Type} {ZL : ZoneLightingController C}.
Variable secrets : arduino_secrets.
Variable P : list event -> Prop.
Hypothesis P_nil : P [].
Hypothesis P_app : forall a b, P a -> P b -> P (a ++ b).

Lemma always_bind {A B} (m : M C A) (k : A -> M C B) :
  always P m -> (forall a, always P (k a)) -> always P (bind m k).
Proof.
  intros Hm Hk w. rewrite events_bind. apply P_app; [apply Hm |].
  destruct (m w) as [a w1 o1 | why w1 o1]; [apply Hk | exact P_nil].
Qed.

Lemma always_get {A} (f : world C -> A) : always P (get f).
Proof. intros w. exact P_nil. Qed.

Lemma always_modify (f : world C -> world C) : always P (modify f).
Proof. intros w. exact P_nil. Qed.

Lemma always_ret {A} (a : A) : always P (ret (C := C) a).
Proof. intros w. exact P_nil. Qed.

Lemma loop_always :
  always P (connectWiFi (C := C) secrets) ->
  always P (connectMQTT (C := C) secrets) ->
  always P (mqttClient_poll secrets) ->
  always P (loop secrets).
Proof.
  intros Hwifi Hmqtt Hpoll. unfold loop, millis.
  apply always_bind; [apply always_get | intros up].
  apply always_bind;
    [destruct (negb up); [exact Hwifi | apply always_ret] | intros _].
  apply always_bind; [apply always_get | intros session].
  apply always_bind;
    [destruct (negb session); [exact Hmqtt | apply always_ret] | intros _].
  apply always_bind; [exact Hpoll | intros _].
  apply always_bind; [apply always_get | intros now].
  apply always_bind; [apply always_get | intros last].
  destruct (_ >? _); [| apply always_ret].
  apply always_bind; [apply always_get | intros now'; apply always_modify].
Qed.

Lemma loops_always (n : nat) :
  always P (loop secrets) -> always P (loops secrets n).
Proof.
  intros Hloop. induction n as [| n IH]; cbn [loops]; [apply always_ret |].
  apply always_bind; [exact Hloop | intros _; exact IH].
Qed.

End Additive.

Lemma emits_only_always {C A} (p : event -> bool) (m : M C A) :
  emits_only p m <-> always (fun evs => forallb p evs = true) m.
Proof. reflexivity. Qed.

Ltac emit_addressed :=
  apply emits_only_emit;
  unfold is_loop_event, well_addressed, devicebound_topic, events_topic;
  cbn [is_connect_phase_event is_dispatch_event is_poll andb orb];
  rewrite ?bytes_eqb_refl; reflexivity.

Ltac step_addressed :=
  unfold Serial_print, Serial_print_int, Serial_println, Serial_println_int,
    delay, millis, mqttClient_subscribe, lightingController_Initialize,
    ECCX08_begin;
  repeat first
    [ match goal with
      | |- emits_only _ (bind _ _) => apply emits_only_bind; [| intros ? ]
      | |- emits_only _ (emit _) => emit_addressed
      end
    | solve [ auto with sketch ] ].

Section Rounds.

Context {C : Type} {ZL : ZoneLightingController C}.
Variable secrets : arduino_secrets.

Lemma connectWiFi_retry_phase (results : list bool) :
  emits_only (fun e => is_connect_phase_event e && well_addressed secrets e)
    (connectWiFi_retry (C := C) secrets results).
Proof.
  induction results as [| connected rest IH]; cbn [connectWiFi_retry].
  - auto with sketch.
  - destruct connected; step_addressed.
Qed.

Lemma connectWiFi_phase :
  emits_only (fun e => is_connect_phase_event e && well_addressed secrets e)
    (connectWiFi (C := C) secrets).
Proof. unfold connectWiFi. step_addressed. apply connectWiFi_retry_phase. Qed.

Lemma connectMQTT_retry_phase (results : list connect_result) :
  emits_only (fun e => is_connect_phase_event e && well_addressed secrets e)
    (connectMQTT_retry (C := C) secrets results).
Proof.
  induction results as [| r rest IH]; cbn [connectMQTT_retry].
  - auto with sketch.
  - destruct r; cbn [connect_ok]; step_addressed.
Qed.

Lemma connectMQTT_phase :
  emits_only (fun e => is_connect_phase_event e && well_addressed secrets e)
    (connectMQTT (C := C) secrets).
Proof. unfold connectMQTT. step_addressed. apply connectMQTT_retry_phase. Qed.

Lemma onMessageReceived_addressed (messageSize : Z) :
  emits_only (fun e => is_dispatch_event e && well_addressed secrets e)
    (onMessageReceived secrets messageSize).
Proof.
  intros w. destruct (payload_cases w) as [H0 | [Hfit | Hbig]].
  - rewrite (onMessageReceived_empty secrets messageSize w H0). reflexivity.
  - rewrite (onMessageReceived_accepted secrets messageSize w Hfit).
    cbn [events].
    destruct (fst (HighlightZone (snd _) _));
      cbn [announcement dispatch_events app forallb is_dispatch_event
           well_addressed andb];
      rewrite bytes_eqb_refl; reflexivity.
  - rewrite (onMessageReceived_oversized secrets messageSize w Hbig).
    reflexivity.
Qed.

Lemma mqttClient_poll_emits_only (p : event -> bool) :
  p MqttPoll = true ->
  (forall messageSize, emits_only p (onMessageReceived secrets messageSize)) ->
  emits_only p (mqttClient_poll secrets).
Proof.
  intros Hpoll Hhandler. unfold mqttClient_poll.
  apply emits_only_bind; [now apply emits_only_emit | intros _].
  apply emits_only_bind; [apply emits_only_get | intros pending].
  destruct pending as [| h rest]; [apply emits_only_ret |].
  apply emits_only_bind; [apply emits_only_modify | intros _].
  destruct h; try apply emits_only_ret; try apply emits_only_modify.
  apply emits_only_bind; [apply emits_only_modify | intros _; apply Hhandler].
Qed.

Lemma loop_addressed :
  emits_only (fun e => is_loop_event e && well_addressed secrets e)
    (loop secrets).
Proof.
  apply emits_only_always.
  apply (loop_always secrets);
    [reflexivity | intros a b Ha Hb; now rewrite forallb_app, Ha, Hb | ..];
    apply emits_only_always.
  - eapply emits_only_weaken; [| apply connectWiFi_phase].
    intros e He. apply andb_true_iff in He as [H1 H2].
    unfold is_loop_event. now rewrite H1, H2.
  - eapply emits_only_weaken; [| apply connectMQTT_phase].
    intros e He. apply andb_true_iff in He as [H1 H2].
    unfold is_loop_event. now rewrite H1, H2.
  - apply mqttClient_poll_emits_only; [reflexivity | intros messageSize].
    eapply emits_only_weaken; [| apply onMessageReceived_addressed].
    intros e He. apply andb_true_iff in He as [H1 H2].
    unfold is_loop_event. rewrite H1, H2. now rewrite orb_true_r.
Qed.

Lemma loops_addressed (n : nat) :
  emits_only (fun e => is_loop_event e && well_addressed secrets e)
    (loops secrets n).
Proof.
  apply emits_only_always.
  apply (loops_always secrets);
    [reflexivity | intros a b Ha Hb; now rewrite forallb_app, Ha, Hb |].
  apply emits_only_always, loop_addressed.
Qed.

Lemma setup_addressed : emits_only (well_addressed secrets) (setup secrets).
Proof.
  unfold setup. cbv zeta. step_addressed.
  all: match goal with
       | |- emits_only _ (if ?b then _ else _) => destruct b
       end; step_addressed.
Qed.

(** X8.  In every run of the sketch, for any number of rounds and whatever
    the network does: every delay is 5000 ms, the serial port is opened at
    9600 baud, every [WiFi.begin] uses the configured SSID and password,
    every [connect] goes to the configured broker on port 8883, every
    subscription is to [devices/{deviceId}/messages/devicebound/#] and every
    message begun is for [devices/{deviceId}/messages/events/]. *)
Theorem run_uses_only_the_configured_endpoints (n : nat) (w : world C) :
  forallb (well_addressed secrets) (events (sketch secrets n w)) = true.
Proof.
  revert w. change (emits_only (well_addressed secrets) (sketch secrets n)).
  unfold sketch. apply emits_only_bind; [apply setup_addressed | intros _].
  eapply emits_only_weaken; [| apply loops_addressed].
  intros e He. now apply andb_true_iff in He as [_ H].
Qed.

End Rounds.

(** *** The shape of a round *)

Section Shape.

Context {C : Type} {ZL : ZoneLightingController C}.
Variable secrets : arduino_secrets.

Lemma round_shape_bind {A B} (m : M C A) (k : A -> M C B) (w : world C) :
  forallb is_connect_phase_event (events (m w)) = true ->
  (forall a w1 o1, m w = Ret a w1 o1 -> round_shape (k a w1)) ->
  round_shape (bind m k w).
Proof.
  intros Hm Hk. unfold round_shape.
  rewrite events_bind, returns_bind.
  destruct (m w) as [a w1 o1 | why w1 o1]; cbn [events] in *.
  - destruct (Hk a w1 o1 eq_refl) as (c & Hc & [[Hret Hev] | Hrest]).
    + exists (o1 ++ c). rewrite forallb_app, Hm, Hc.
      split; [reflexivity |]. left. now rewrite Hret, Hev.
    + destruct Hrest as (dispatch & Hret & Hev & Hd).
      exists (o1 ++ c). rewrite forallb_app, Hm, Hc.
      split; [reflexivity |]. right. exists dispatch.
      rewrite Hret, Hev, app_assoc. repeat split. exact Hd.
  - exists o1. split; [exact Hm |]. left. now rewrite app_nil_r.
Qed.

Lemma phase_of_addressed {A} (m : M C A) (w : world C) :
  emits_only (fun e => is_connect_phase_event e && well_addressed secrets e) m ->
  forallb is_connect_phase_event (events (m w)) = true.
Proof.
  intros Hm. specialize (Hm w). rewrite forallb_forall in *.
  intros e He. specialize (Hm e He). now apply andb_true_iff in Hm as [H _].
Qed.

Lemma loop_shape (w : world C) : round_shape (loop secrets w).
Proof.
  unfold loop.
  apply round_shape_bind; [reflexivity | intros up w1 o1 _].
  apply round_shape_bind.
  { destruct (negb up); [| reflexivity].
    apply phase_of_addressed, connectWiFi_phase. }
  intros _ w2 o2 _.
  apply round_shape_bind; [reflexivity | intros session w3 o3 _].
  apply round_shape_bind.
  { destruct (negb session); [| reflexivity].
    apply phase_of_addressed, connectMQTT_phase. }
  intros _ w4 o4 _.
  destruct (mqttClient_poll_result secrets w4) as (w5 & dispatch & Hpoll & Hd).
  exists []. split; [reflexivity |]. right. exists dispatch.
  cbv beta iota zeta delta [bind millis get modify ret].
  rewrite Hpoll.
  destruct (_ >? _); cbn [returns events app]; rewrite !app_nil_r;
    repeat split; exact Hd.
Qed.

(** X9.  One round of [loop], from any world: first come events of
    [connectWiFi] and [connectMQTT] only (none, when both are connected);
    then either the round does not return, and nothing else has happened -
    no poll, no dispatch - or it polls exactly once and what follows is the
    dispatch of the message that poll delivered. *)
Theorem loop_connects_then_polls_once (w : world C) :
  exists connecting,
    forallb is_connect_phase_event connecting = true /\
    ((returns (loop secrets w) = false /\
      events (loop secrets w) = connecting) \/
     (exists dispatch,
        returns (loop secrets w) = true /\
        events (loop secrets w) = connecting ++ MqttPoll :: dispatch /\
        forallb is_dispatch_event dispatch = true)).
Proof. exact (loop_shape w). Qed.

(** X10.  While the link is down and [WiFi.begin] keeps failing, a round of
    [loop] is [connectWiFi] and nothing else: it does not return, and it
    makes no call on the MQTT client - no connect, no subscription, no
    poll. *)
Theorem loop_waits_for_the_link (w : world C) :
  wifi_connected w = false ->
  forallb negb (wifi_begin_results w) = true ->
  loop secrets w = connectWiFi secrets w /\
  returns (loop secrets w) = false /\
  forallb (fun e => negb (is_mqtt_call e)) (events (loop secrets w)) = true.
Proof.
  intros Hdown Hfail.
  destruct (connectWiFi_all_failures secrets w Hfail)
    as (w' & evs & Hstuck & _ & _ & _ & Hno).
  assert (Hloop : loop secrets w = connectWiFi secrets w).
  { cbv beta iota zeta delta [loop bind get].
    rewrite Hdown. cbn [negb]. now rewrite Hstuck. }
  rewrite Hloop, Hstuck. repeat split. exact Hno.
Qed.

Lemma setup_with_ECCX08 (w : world C) :
  serial_ready w = true -> eccx08_present w = true ->
  setup secrets w =
  Ret tt
    (set_lightingController (Initialize (lightingController w))
       (set_clock (clock w + 5000) w))
    [Delay 5000; SerialBegin 9600; LightingInitialize; ECCX08Begin true;
     CertReconstruct 0 8; SslOnGetTime; SslSetEccSlot 0;
     MqttSetId (deviceId secrets);
     SerialPrint (txt "Username:" ++ [x09]);
     SerialPrintln (hub_username secrets);
     SerialPrint (txt "Device Pass:" ++ [x09]);
     SerialPrintln (devicePass secrets);
     MqttSetUsernamePassword (hub_username secrets) (devicePass secrets);
     MqttOnMessage].
Proof.
  intros Hserial Hecc.
  cbv beta iota zeta delta
    [setup bind delay emit get modify ret never lightingController_Initialize
     ECCX08_begin Serial_println Serial_print].
  cbn [serial_ready set_clock]. rewrite Hserial. cbv beta iota.
  cbn [eccx08_present set_clock set_lightingController].
  rewrite Hecc. reflexivity.
Qed.

Lemma loops_emit_loop_events (n : nat) :
  emits_only is_loop_event (loops secrets n).
Proof.
  eapply emits_only_weaken; [| apply loops_addressed].
  intros e He. now apply andb_true_iff in He as [H _].
Qed.

(** X11.  With the serial port and the ECCX08 there, [setup] returns, and
    in every run of the sketch the client gets its identity exactly once and
    before anything goes to the network: id [deviceId], user name
    [{broker}/{deviceId}/api-version=2018-06-30], password [devicePass],
    then the callback; the lighting controller is initialised exactly once;
    [setup] itself makes no connection attempt, subscription or poll; and it
    prints the device password on the serial port. *)
Theorem identity_set_once_before_network (n : nat) (w : world C) :
  serial_ready w = true -> eccx08_present w = true ->
  exists w1 pre,
    setup secrets w = Ret tt w1 pre /\
    lightingController w1 = Initialize (lightingController w) /\
    events (sketch secrets n w) = pre ++ events (loops secrets n w1) /\
    filter is_client_setup (events (sketch secrets n w)) =
      [MqttSetId (deviceId secrets);
       MqttSetUsernamePassword (hub_username secrets) (devicePass secrets);
       MqttOnMessage] /\
    count is_initialize (events (sketch secrets n w)) = 1%nat /\
    count is_connection_attempt pre = 0%nat /\
    count is_subscribe pre = 0%nat /\
    count is_poll pre = 0%nat /\
    In (SerialPrintln (devicePass secrets)) pre.
Proof.
  intros Hserial Hecc.
  pose proof (setup_with_ECCX08 w Hserial Hecc) as Hsetup.
  eexists _, _. split; [exact Hsetup |].
  split; [reflexivity |].
  assert (Hev : events (sketch secrets n w) =
                events (setup secrets w) ++
                events (loops secrets n
                          (set_lightingController
                             (Initialize (lightingController w))
                             (set_clock (clock w + 5000) w)))).
  { unfold sketch. rewrite events_bind, Hsetup. reflexivity. }
  rewrite Hsetup in Hev. cbn [events] in Hev.
  pose proof (loops_emit_loop_events n
                (set_lightingController (Initialize (lightingController w))
                   (set_clock (clock w + 5000) w))) as Hloops.
  split; [exact Hev |].
  set (tail := events (loops secrets n _)) in *.
  assert (Hsetup0 : count is_client_setup tail = 0%nat).
  { apply (count_none is_client_setup is_loop_event); [| exact Hloops].
    intros e He. destruct e; try reflexivity; discriminate. }
  assert (Hinit0 : count is_initialize tail = 0%nat).
  { apply (count_none is_initialize is_loop_event); [| exact Hloops].
    intros e He. destruct e; try reflexivity; discriminate. }
  split; [| split].
  - rewrite Hev, filter_app. cbn [filter is_client_setup app].
    apply length_zero_iff_nil in Hsetup0. now rewrite Hsetup0.
  - rewrite Hev, count_app, Hinit0. reflexivity.
  - repeat split. cbn [In]. auto 15.
Qed.

End Shape.

(** *** Traffic and time *)

Lemma tally_nil : tally [].
Proof. repeat split. Qed.

Lemma tally_app (a b : list event) : tally a -> tally b -> tally (a ++ b).
Proof.
  unfold tally. rewrite !count_app.
  intros (A1 & A2 & A3) (B1 & B2 & B3). repeat split; lia.
Qed.

Lemma tally_of_phase (evs : list event) :
  forallb is_connect_phase_event evs = true -> tally evs.
Proof.
  intros H. unfold tally.
  rewrite (count_none is_begin_message is_connect_phase_event evs),
          (count_none is_end_message is_connect_phase_event evs),
          (count_none is_highlight is_connect_phase_event evs),
          (count_none is_read is_connect_phase_event evs);
    try exact H;
    try (intros e He; destruct e; try reflexivity; discriminate).
  repeat split.
Qed.

Lemma tally_of_setup (evs : list event) :
  forallb is_setup_event evs = true -> tally evs.
Proof.
  intros H. unfold tally.
  rewrite (count_none is_begin_message is_setup_event evs),
          (count_none is_end_message is_setup_event evs),
          (count_none is_highlight is_setup_event evs),
          (count_none is_read is_setup_event evs);
    try exact H;
    try (intros e He; destruct e; try reflexivity; discriminate).
  repeat split.
Qed.

Section Traffic.

Context {C : Type} {ZL : ZoneLightingController C}.
Variable secrets : arduino_secrets.

Lemma onMessageReceived_traffic (messageSize : Z) (w : world C) :
  let evs := events (onMessageReceived secrets messageSize w) in
  count is_begin_message evs = count is_read evs /\
  count is_end_message evs = count is_read evs /\
  count is_highlight evs = (2 * count is_read evs)%nat.
Proof.
  cbv zeta. destruct (payload_cases w) as [H0 | [Hfit | Hbig]].
  - rewrite (onMessageReceived_empty secrets messageSize w H0).
    cbn. repeat split; lia.
  - rewrite (onMessageReceived_accepted secrets messageSize w Hfit).
    cbn [events].
    destruct (fst (HighlightZone (snd _) _)); cbn; repeat split; lia.
  - rewrite (onMessageReceived_oversized secrets messageSize w Hbig).
    cbn. repeat split; lia.
Qed.

(** What [poll] does: the poll, then nothing or one run of the callback; the
    clock and [lastMillis] are as before. *)
Lemma mqttClient_poll_dispatch (w : world C) :
  exists w' dispatch,
    mqttClient_poll secrets w = Ret tt w' (MqttPoll :: dispatch) /\
    (dispatch = [] \/
     exists messageSize w0,
       dispatch = events (onMessageReceived secrets messageSize w0)) /\
    clock w' = clock w /\ lastMillis w' = lastMillis w.
Proof.
  unfold mqttClient_poll, bind, emit, get, modify, ret.
  destruct (happenings w) as [| [| topic payload | |] rest];
    try (eexists _, _; split; [reflexivity |];
         split; [now left | split; reflexivity]).
  pose proof (onMessageReceived_leaves secrets (Z.of_nat (length payload))
                (set_rx topic payload (set_happenings rest w)))
    as (_ & _ & _ & Hclock & Hlast & _).
  destruct (onMessageReceived_result secrets (Z.of_nat (length payload))
              (set_rx topic payload (set_happenings rest w)))
    as (w' & evs & Heq & _).
  rewrite Heq in *. cbn [final] in *.
  eexists _, _. split; [reflexivity |].
  split; [right; eexists _, _; now rewrite Heq |].
  split; [exact Hclock | exact Hlast].
Qed.

Lemma mqttClient_poll_tally : always tally (mqttClient_poll secrets).
Proof.
  intros w.
  destruct (mqttClient_poll_dispatch w) as (w' & dispatch & -> & Hd & _).
  cbn [events]. unfold tally.
  destruct Hd as [-> | (messageSize & w0 & ->)].
  - cbn. repeat split.
  - destruct (onMessageReceived_traffic messageSize w0) as (H1 & H2 & H3).
    unfold count in *. cbn [filter is_begin_message is_end_message
                            is_highlight is_read length].
    repeat split; assumption.
Qed.

Lemma setup_emits : emits_only is_setup_event (setup secrets).
Proof.
  unfold setup. cbv zeta. step_emits.
  all: match goal with
       | |- emits_only _ (if ?b then _ else _) => destruct b
       end; step_emits.
Qed.

Lemma loops_tally (n : nat) : always tally (loops secrets n).
Proof.
  apply (loops_always secrets); [exact tally_nil | exact tally_app |].
  apply (loop_always secrets); [exact tally_nil | exact tally_app | ..].
  - intros w. apply tally_of_phase, (phase_of_addressed secrets),
      connectWiFi_phase.
  - intros w. apply tally_of_phase, (phase_of_addressed secrets),
      connectMQTT_phase.
  - exact mqttClient_poll_tally.
Qed.

(** X12.  In every run of the sketch, for any number of rounds and whatever
    arrives: as many replies are begun, and as many are sent, as payloads
    were read into the buffer, and [HighlightZone] is called twice for each
    of them. *)
Theorem run_traffic_adds_up (n : nat) (w : world C) :
  let evs := events (sketch secrets n w) in
  count is_begin_message evs = count is_read evs /\
  count is_end_message evs = count is_read evs /\
  count is_highlight evs = (2 * count is_read evs)%nat.
Proof.
  cbv zeta. change (tally (events (sketch secrets n w))).
  unfold sketch. rewrite events_bind.
  apply tally_app.
  - apply tally_of_setup, setup_emits.
  - destruct (setup secrets w) as [a w1 o1 | why w1 o1];
      [apply loops_tally | exact tally_nil].
Qed.

(** X13.  The five-second timer of [loop] is right across the wrap of
    [millis()]: with link and session up, [lastMillis] a 32-bit reading
    taken [d] ms ago ([d] below 2^32), a round of [loop] takes a new reading
    exactly when [d] is more than 5000, also when the clock has wrapped
    around in between; otherwise [lastMillis] stays. *)
Theorem timer_survives_millis_rollover (w : world C) (t0 d : Z) :
  wifi_connected w = true -> mqtt_connected w = true ->
  lastMillis w = t0 mod 2 ^ 32 ->
  clock w = t0 + d ->
  0 <= d < 2 ^ 32 ->
  returns (loop secrets w) = true /\
  lastMillis (final (loop secrets w)) =
    if d >? 5000 then clock w mod 2 ^ 32 else lastMillis w.
Proof.
  intros Hwifi Hmqtt Hlast Hclock Hd.
  destruct (mqttClient_poll_dispatch w)
    as (w1 & dispatch & Hpoll & _ & Hc1 & Hl1).
  cbv beta iota zeta delta [loop bind get millis modify ret].
  rewrite Hwifi. cbn [negb]. cbv beta iota.
  rewrite Hmqtt. cbn [negb]. cbv beta iota.
  rewrite Hpoll. rewrite Hc1, Hl1, Hlast, Hclock.
  assert (Hdiff : ((t0 + d) mod 2 ^ 32 - t0 mod 2 ^ 32) mod 2 ^ 32 = d).
  { rewrite <- Zminus_mod. replace (t0 + d - t0) with d by lia.
    apply Z.mod_small. exact Hd. }
  rewrite Hdiff.
  destruct (d >? 5000); cbn [returns final lastMillis set_lastMillis].
  - split; [reflexivity |]. now rewrite ?Hc1, ?Hclock.
  - split; [reflexivity |]. now rewrite ?Hl1, ?Hlast.
Qed.

End Traffic.

(** *** Retries, rounds and the timer on concrete worlds *)

Lemma connectWiFi_after_failures_witness :
  wifi_begin_results slow_network = [false; false] ++ true :: [] /\
  forallb negb [false; false] = true /\
  exists w' evs,
    connectWiFi demo_secrets slow_network = Ret tt w' evs /\
    wifi_connected w' = true /\
    clock w' = clock slow_network + 5000 * Z.of_nat (length [false; false]) /\
    filter is_delay evs = repeat (Delay 5000) (length [false; false]).
Proof.
  assert (H1 : wifi_begin_results slow_network = [false; false] ++ true :: [])
    by reflexivity.
  assert (H2 : forallb negb [false; false] = true) by reflexivity.
  destruct (connectWiFi_after_failures demo_secrets slow_network
              [false; false] [] H1 H2)
    as (w' & evs & Heq & Hup & _ & Hclock & _ & _ & Hdel & _).
  split; [exact H1 |]. split; [exact H2 |].
  exists w', evs. repeat split; assumption.
Defined.

Lemma connectWiFi_keeps_retrying_witness :
  forallb negb (wifi_begin_results no_network) = true /\
  exists w' evs,
    connectWiFi demo_secrets no_network = Stuck RetryWiFi w' evs /\
    count is_delay evs = length (wifi_begin_results no_network).
Proof.
  assert (H : forallb negb (wifi_begin_results no_network) = true)
    by reflexivity.
  destruct (connectWiFi_keeps_retrying demo_secrets no_network H)
    as (w' & evs & Heq & _ & _ & Hdel & _).
  split; [exact H |]. exists w', evs. split; assumption.
Defined.

Lemma connectMQTT_after_failures_witness :
  mqtt_connect_results slow_network =
    map ConnectFailed [-2] ++ SessionUp :: [] /\
  exists w' before,
    connectMQTT demo_secrets slow_network =
      Ret tt w' (before ++ [MqttSubscribe (devicebound_topic demo_secrets)]) /\
    mqtt_connected w' = true /\
    printed_error_codes before = [-2].
Proof.
  assert (H : mqtt_connect_results slow_network =
              map ConnectFailed [-2] ++ SessionUp :: []) by reflexivity.
  destruct (connectMQTT_after_failures demo_secrets slow_network [-2] [] H)
    as (w' & before & Heq & Hup & _ & _ & _ & _ & Hcodes & _).
  split; [exact H |]. exists w', before. repeat split; assumption.
Defined.

Lemma connectMQTT_keeps_retrying_witness :
  mqtt_connect_results broker_refuses = map ConnectFailed [-1; -2] /\
  exists w' evs,
    connectMQTT demo_secrets broker_refuses = Stuck RetryMQTT w' evs /\
    printed_error_codes evs = [-1; -2].
Proof.
  assert (H : mqtt_connect_results broker_refuses =
              map ConnectFailed [-1; -2]) by reflexivity.
  destruct (connectMQTT_keeps_retrying demo_secrets broker_refuses [-1; -2] H)
    as (w' & evs & Heq & _ & _ & Hcodes & _).
  split; [exact H |]. exists w', evs. split; assumption.
Defined.

Lemma no_shorter_than_before_is_verbatim_witness :
  (0 <= length (rx (arriving (txt "Zone3") bench)))%nat /\
  0 < Z.of_nat (length (rx (arriving (txt "Zone3") bench)))
    < max_mqtt_buffer_len /\
  no_nul (rx (arriving (txt "Zone3") bench)) = true /\
  forallb in_bounds (events (deliver demo_secrets (txt "Zone3") bench)) = true /\
  exists v1 v2,
    published (events (deliver demo_secrets (txt "Zone3") bench)) =
      [(events_topic demo_secrets, reply_text (txt "Zone3") v1)] /\
    highlight_calls (events (deliver demo_secrets (txt "Zone3") bench)) =
      [(txt "Zone3", v1); (txt "Zone3", v2)].
Proof.
  assert (H1 : (0 <= length (rx (arriving (txt "Zone3") bench)))%nat)
    by apply Nat.le_0_l.
  assert (H2 : 0 < Z.of_nat (length (rx (arriving (txt "Zone3") bench)))
               < max_mqtt_buffer_len)
    by (vm_compute; split; reflexivity).
  assert (H3 : no_nul (rx (arriving (txt "Zone3") bench)) = true)
    by reflexivity.
  destruct (no_shorter_than_before_is_verbatim demo_secrets 5
              (arriving (txt "Zone3") bench) 0
              (terminated_from_power_up zones_controller [] 0) H1 H2 H3)
    as (Hecho & Hbounds & _).
  repeat split; assumption.
Defined.

Lemma growing_payloads_echoed_verbatim_witness :
  growing 0 [txt "Zone1"; txt "Zone12"; txt "Zone123"] = true /\
  Forall2
    (fun payload reply =>
       exists verdict,
         reply = [(events_topic demo_secrets, reply_text payload verdict)])
    [txt "Zone1"; txt "Zone12"; txt "Zone123"]
    (deliver_each demo_secrets [txt "Zone1"; txt "Zone12"; txt "Zone123"]
       bench).
Proof.
  assert (H : growing 0 [txt "Zone1"; txt "Zone12"; txt "Zone123"] = true)
    by (vm_compute; reflexivity).
  split; [exact H |].
  exact (growing_payloads_echoed_verbatim demo_secrets _ bench 0
           (terminated_from_power_up zones_controller [] 0) H).
Defined.

Lemma loop_waits_for_the_link_witness :
  wifi_connected no_network = false /\
  forallb negb (wifi_begin_results no_network) = true /\
  returns (loop demo_secrets no_network) = false /\
  forallb (fun e => negb (is_mqtt_call e))
    (events (loop demo_secrets no_network)) = true.
Proof.
  assert (H1 : wifi_connected no_network = false) by reflexivity.
  assert (H2 : forallb negb (wifi_begin_results no_network) = true)
    by reflexivity.
  destruct (loop_waits_for_the_link demo_secrets no_network H1 H2)
    as (_ & Hret & Hno).
  repeat split; assumption.
Defined.

Lemma identity_set_once_before_network_witness :
  serial_ready slow_network = true /\
  eccx08_present slow_network = true /\
  filter is_client_setup (events (sketch demo_secrets 2 slow_network)) =
    [MqttSetId (deviceId demo_secrets);
     MqttSetUsernamePassword (hub_username demo_secrets)
       (devicePass demo_secrets);
     MqttOnMessage] /\
  count is_initialize (events (sketch demo_secrets 2 slow_network)) = 1%nat.
Proof.
  assert (H1 : serial_ready slow_network = true) by reflexivity.
  assert (H2 : eccx08_present slow_network = true) by reflexivity.
  destruct (identity_set_once_before_network demo_secrets 2 slow_network H1 H2)
    as (w1 & pre & _ & _ & _ & Hid & Hinit & _).
  repeat split; assumption.
Defined.

Lemma timer_survives_millis_rollover_witness :
  wifi_connected after_rollover = true /\
  mqtt_connected after_rollover = true /\
  lastMillis after_rollover = (2 ^ 32 - 1000) mod 2 ^ 32 /\
  clock after_rollover = (2 ^ 32 - 1000) + 6000 /\
  0 <= 6000 < 2 ^ 32 /\
  lastMillis (final (loop demo_secrets after_rollover)) =
    (if 6000 >? 5000 then clock after_rollover mod 2 ^ 32
     else lastMillis after_rollover).
Proof.
  assert (H1 : wifi_connected after_rollover = true) by reflexivity.
  assert (H2 : mqtt_connected after_rollover = true) by reflexivity.
  assert (H3 : lastMillis after_rollover = (2 ^ 32 - 1000) mod 2 ^ 32)
    by reflexivity.
  assert (H4 : clock after_rollover = (2 ^ 32 - 1000) + 6000) by reflexivity.
  assert (H5 : 0 <= 6000 < 2 ^ 32) by (split; [discriminate | reflexivity]).
  destruct (timer_survives_millis_rollover demo_secrets after_rollover
              (2 ^ 32 - 1000) 6000 H1 H2 H3 H4 H5) as (_ & Hlast).
  repeat split; try assumption; try discriminate.
Defined.

(** After the wrap the new reading is the small one: 5000. *)
Example timer_after_rollover :
  lastMillis (final (loop demo_secrets after_rollover)) = 5000.
Proof. vm_compute. reflexivity. Qed.

Section Once.

Context {C : Type} {ZL : ZoneLightingController C}.
Variable secrets : arduino_secrets.

(** X14.  A payload is answered once.  When the callback has taken an
    accepted payload, the client has nothing left of it, and the callback
    run again before a new message arrives is a no-op: no read, no
    [HighlightZone] call, no reply, the world as it was. *)
Theorem payload_answered_once (messageSize messageSize' : Z) (w : world C) :
  0 < Z.of_nat (length (rx w)) <= max_mqtt_buffer_len ->
  let w1 := final (onMessageReceived secrets messageSize w) in
  let again := onMessageReceived secrets messageSize' w1 in
  rx w1 = [] /\
  final again = w1 /\
  published (events again) = [] /\
  count is_read (events again) = 0%nat /\
  count is_highlight (events again) = 0%nat.
Proof.
  intros Hfit w1 again.
  assert (Hrx : rx w1 = []).
  { subst w1. rewrite (onMessageReceived_accepted secrets messageSize w Hfit).
    reflexivity. }
  subst again.
  rewrite (onMessageReceived_empty secrets messageSize' w1 Hrx).
  repeat split. exact Hrx.
Qed.

End Once.

Lemma payload_answered_once_witness :
  0 < Z.of_nat (length (rx (arriving (txt "Zone2") bench)))
    <= max_mqtt_buffer_len /\
  published
    (events
       (onMessageReceived demo_secrets 5
          (final (deliver demo_secrets (txt "Zone2") bench)))) = [].
Proof.
  assert (H : 0 < Z.of_nat (length (rx (arriving (txt "Zone2") bench)))
              <= max_mqtt_buffer_len)
    by (vm_compute; split; [reflexivity | discriminate]).
  destruct (payload_answered_once demo_secrets 5 5
              (arriving (txt "Zone2") bench) H) as (_ & _ & Hpub & _).
  split; [exact H | exact Hpub].
Defined.
